(** * options_trading.ipynb: a covered-call overwrite notebook

    The notebook is a linear script of eight cells run against a brokerage
    account.  This development embeds it cell by cell:

    - Python's [float] is IEEE binary64, taken from the Standard Library's
      [SpecFloat] with [prec = 53] and [emax = 1024]; [round(x, 2)] and
      [str(x)] are written out on the exact dyadic value of the float;
    - [datetime.date] is its proleptic Gregorian ordinal, and adding a
      [timedelta] checks the range of the result as [date.__add__] does;
    - the brokerage and the clock are a [World] that the cells read and
      write through the calls of the trading client; every call, every
      request object built and every line printed is logged as an [event];
    - a cell is a computation in a small monad that threads the [World],
      collects the events and stops at the first exception.

    The notebook defines no function of its own: the names below are those
    of its variables and of the client methods it calls. *)

From Stdlib Require Import ZArith List String Ascii Bool Lia QArith.
From Stdlib Require Import Floats.SpecFloat.
From Stdlib Require DecimalString.
Import ListNotations.
Open Scope Z_scope.

(** * Python floats *)

Module PyFloat.

Definition float := spec_float.
Definition prec : Z := 53.
Definition emax : Z := 1024.

(** [x * y] on floats. *)
Definition fmul : float -> float -> float := SFmul prec emax.

(** The float nearest to [num / den] (what a decimal literal, or
    [_Py_dg_strtod] on a decimal string, denotes). *)
Definition float_of_ratio (s : bool) (num den : positive) : float :=
  SFdiv prec emax (S754_finite s num 0) (S754_finite false den 0).

(** The literal [1.02]. *)
Definition c_1_02 : float := Eval vm_compute in float_of_ratio false 102 100.

Definition fzero : float := S754_zero false.

Definition fle (x y : float) : bool := SFleb x y.
Definition flt (x y : float) : bool := SFltb x y.

(** ** [round(x, ndigits)]

    [float.__round__] leaves NaN and the infinities alone; a finite [x] goes
    through [double_round]: [_Py_dg_dtoa] in mode 3 gives the decimal digits
    of the exact value of [x] correctly rounded (ties to even) at [ndigits]
    places, and [_Py_dg_strtod] reads that decimal back as the nearest
    float.  The sign of [x] is kept, also when every digit is rounded
    away. *)

Definition round_half_even (num den : Z) : Z :=
  let q := num / den in
  match 2 * (num mod den) ?= den with
  | Lt => q
  | Gt => q + 1
  | Eq => if Z.even q then q else q + 1
  end.

(** [|x| * 10 ^ ndigits] as an exact fraction, for [|x| = m * 2 ^ e]. *)
Definition scaled_ratio (ndigits : Z) (m : positive) (e : Z) : Z * Z :=
  let num := Zpos m * 10 ^ ndigits in
  if 0 <=? e then (num * 2 ^ e, 1) else (num, 2 ^ (- e)).

Definition double_round (x : float) (ndigits : Z) : float :=
  match x with
  | S754_finite s m e =>
      let '(num, den) := scaled_ratio ndigits m e in
      match round_half_even num den with
      | Zpos n => float_of_ratio s n (Z.to_pos (10 ^ ndigits))
      | _ => S754_zero s
      end
  | _ => x
  end.

(** ** [str(x)], which is [repr(x)]: the shortest decimal string that reads
    back as [x], and among those the one nearest to [x]. *)

(** [num / den / 10 ^ p] as a fraction. *)
Definition scale10 (num den p : Z) : Z * Z :=
  if 0 <=? p then (num, den * 10 ^ p) else (num * 10 ^ (- p), den).

Definition below_pow10 (num den t : Z) : bool :=
  let '(a, b) := scale10 num den t in a <? b.

Fixpoint find_decpt (fuel : nat) (num den t : Z) : Z :=
  match fuel with
  | O => t
  | S fuel' =>
      if below_pow10 num den t then t else find_decpt fuel' num den (t + 1)
  end.

(** The least [t] with [num / den < 10 ^ t], searched upwards from an
    underestimate taken from the binary logarithm. *)
Definition decpt_of (num den : Z) : Z :=
  let b2 := Z.log2 num - Z.log2 den in
  find_decpt 8 num den ((b2 * 30103) / 100000 - 2).

(** The reals that round to the float [m * 2 ^ e]: between the midpoints
    to its two neighbours, the midpoints included when [m] is even. *)
Record interval := {
  i_low : Z;
  i_val : Z;
  i_high : Z;
  i_den : Z;
  i_closed : bool
}.

Definition rounding_interval (m : positive) (e : Z) : interval :=
  let boundary := (Zpos m =? 2 ^ (prec - 1)) && (3 - emax - prec <? e) in
  let low := 4 * Zpos m - (if boundary then 1 else 2) in
  let val := 4 * Zpos m in
  let high := 4 * Zpos m + 2 in
  let e2 := e - 2 in
  let closed := Z.even (Zpos m) in
  if 0 <=? e2
  then Build_interval (low * 2 ^ e2) (val * 2 ^ e2) (high * 2 ^ e2) 1 closed
  else Build_interval low val high (2 ^ (- e2)) closed.

(** The multiple [d * 10 ^ p] nearest to the float among those inside its
    rounding interval, if there is one. *)
Definition candidate (i : interval) (p : Z) : option Z :=
  let '(a, b) := scale10 (i_val i) (i_den i) p in
  let l := fst (scale10 (i_low i) (i_den i) p) in
  let h := fst (scale10 (i_high i) (i_den i) p) in
  let inside d :=
    if i_closed i then (l <=? d * b) && (d * b <=? h)
    else (l <? d * b) && (d * b <? h) in
  let d0 := a / b in
  match inside d0, inside (d0 + 1) with
  | true, true =>
      Some match 2 * a ?= (2 * d0 + 1) * b with
           | Lt => d0
           | Gt => d0 + 1
           | Eq => if Z.even d0 then d0 else d0 + 1
           end
  | true, false => Some d0
  | false, true => Some (d0 + 1)
  | false, false => None
  end.

(** Try [k], [k + 1], ... significant digits; seventeen always suffice. *)
Fixpoint shortest (fuel : nat) (i : interval) (t k : Z) : Z * Z :=
  match fuel with
  | O =>
      let '(a, b) := scale10 (i_val i) (i_den i) (t - k) in (a / b, t - k)
  | S fuel' =>
      match candidate i (t - k) with
      | Some d => (d, t - k)
      | None => shortest fuel' i t (k + 1)
      end
  end.

Fixpoint strip_zeros (fuel : nat) (d p : Z) : Z * Z :=
  match fuel with
  | O => (d, p)
  | S fuel' =>
      if (d mod 10 =? 0) && (0 <? d)
      then strip_zeros fuel' (d / 10) (p + 1)
      else (d, p)
  end.

Definition digits_of (d : Z) : string :=
  DecimalString.NilEmpty.string_of_uint (N.to_uint (Z.to_N d)).

(** The digits of the shortest representation and the position of the
    decimal point counted from their start ([_Py_dg_dtoa] in mode 0). *)
Definition dtoa_shortest (m : positive) (e : Z) : string * Z :=
  let i := rounding_interval m e in
  let t := decpt_of (i_val i) (i_den i) in
  let '(d, p) := shortest 17 i t 1 in
  let '(d, p) := strip_zeros 20 d p in
  let ds := digits_of d in
  (ds, Z.of_nat (String.length ds) + p).

Fixpoint zeros (n : nat) : string :=
  match n with
  | O => EmptyString
  | S n' => String "0" (zeros n')
  end.

Definition exponent_text (x : Z) : string :=
  let sign := if x <? 0 then "-"%string else "+"%string in
  let pad := if Z.abs x <? 10 then "0"%string else ""%string in
  (sign ++ pad ++ digits_of (Z.abs x))%string.

(** [format_float_short] for the format code ['r'] with [Py_DTSF_ADD_DOT_0]:
    exponent notation when the decimal point falls more than three places
    before, or more than sixteen places after, the first digit. *)
Definition format_repr (ds : string) (decpt : Z) : string :=
  let n := String.length ds in
  if (decpt <=? -4) || (16 <? decpt) then
    let frac :=
      if (1 <? n)%nat then ("." ++ String.substring 1 (n - 1) ds)%string
      else ""%string in
    (String.substring 0 1 ds ++ frac ++ "e" ++ exponent_text (decpt - 1))%string
  else if decpt <=? 0 then
    ("0." ++ zeros (Z.to_nat (- decpt)) ++ ds)%string
  else if Z.of_nat n <=? decpt then
    (ds ++ zeros (Z.to_nat decpt - n) ++ ".0")%string
  else
    (String.substring 0 (Z.to_nat decpt) ds ++ "."
       ++ String.substring (Z.to_nat decpt) (n - Z.to_nat decpt) ds)%string.

Definition float_repr (x : float) : string :=
  match x with
  | S754_zero s => if s then "-0.0"%string else "0.0"%string
  | S754_infinity s => if s then "-inf"%string else "inf"%string
  | S754_nan => "nan"%string
  | S754_finite s m e =>
      let '(ds, decpt) := dtoa_shortest m e in
      let sign := if s then "-"%string else ""%string in
      (sign ++ format_repr ds decpt)%string
  end.

(** ** Signs *)

(** [x] is more than half a hundredth: [x * 100 > 1 / 2]. *)
Definition above_half_cent (x : float) : Prop :=
  match x with
  | S754_finite false m e =>
      snd (scaled_ratio 2 m e) < 2 * fst (scaled_ratio 2 m e)
  | S754_infinity false => True
  | _ => False
  end.

(** [x] is not NaN and carries the sign bit [s]. *)
Definition sign_is (s : bool) (x : float) : Prop :=
  match x with
  | S754_zero s' | S754_infinity s' | S754_finite s' _ _ => s' = s
  | S754_nan => False
  end.

End PyFloat.

(** * Exceptions and results *)

Inductive pyexc := OverflowError | TypeError | NameError | ValueError.

Inductive outcome (A : Type) :=
| Done (a : A)
| Raised (e : pyexc).
Arguments Done {A} a.
Arguments Raised {A} e.

(** * Python dates *)

Module PyDate.

(** A [datetime.date], as the number of days since 0001-01-01 counted
    from 1. *)
Record date := { toordinal : Z }.

(** [date.max.toordinal()], the ordinal of 9999-12-31. *)
Definition MAXORDINAL : Z := 3652059.

(** A [timedelta] built from whole days. *)
Record timedelta := { days : Z }.

(** [date.__add__]: the sum of the ordinals, or [OverflowError] when it is
    not the ordinal of a date. *)
Definition date_add (d : date) (delta : timedelta) : outcome date :=
  let o := toordinal d + days delta in
  if (0 <? o) && (o <=? MAXORDINAL) then Done {| toordinal := o |}
  else Raised OverflowError.

(** The ordinal of a calendar day ([_ymd2ord]). *)
Definition is_leap (y : Z) : bool :=
  (y mod 4 =? 0) && (negb (y mod 100 =? 0) || (y mod 400 =? 0)).

Definition days_before_year (y : Z) : Z :=
  let y' := y - 1 in y' * 365 + y' / 4 - y' / 100 + y' / 400.

Definition days_in_month : list Z :=
  [31; 28; 31; 30; 31; 30; 31; 31; 30; 31; 30; 31].

Definition days_before_month (y m : Z) : Z :=
  fold_right Z.add 0 (firstn (Z.to_nat (m - 1)) days_in_month)
  + (if (2 <? m) && is_leap y then 1 else 0).

Definition ymd2ord (y m d : Z) : Z :=
  days_before_year y + days_before_month y m + d.

Definition date_of (y m d : Z) : date := {| toordinal := ymd2ord y m d |}.

End PyDate.

(** * Python values that meet in a comparison *)

Inductive pyval :=
| VFloat (x : PyFloat.float)
| VStr (s : string).

(** [a >= b]: floats compare as numbers (false on NaN), strings
    lexicographically, and a float against a string is a [TypeError]. *)
Definition py_ge (a b : pyval) : outcome bool :=
  match a, b with
  | VFloat x, VFloat y => Done (PyFloat.fle y x)
  | VStr s, VStr t => Done (String.leb t s)
  | _, _ => Raised TypeError
  end.

Definition str_int (z : Z) : string :=
  DecimalString.NilZero.string_of_int (Z.to_int z).

Definition str_bool (b : bool) : string :=
  if b then "True"%string else "False"%string.

Definition str_optional {A : Type} (str : A -> string) (v : option A) : string :=
  match v with
  | None => "None"%string
  | Some a => str a
  end.

(** * The brokerage seen by the notebook *)

Module Broker.
Import PyFloat PyDate.

(** The fields of the account that the notebook prints. *)
Record Account := {
  options_approved_level : option Z;
  options_trading_level : option Z;
  options_buying_power : option string
}.

(** The account configuration: the ceiling on the options trading level,
    and the settings the notebook never touches. *)
Record AccountConfigurations := {
  max_options_trading_level : option Z;
  other_settings : list (string * string)
}.

Record Asset := {
  asset_symbol : string;
  attributes : option (list string)
}.

Record Position := {
  position_symbol : string;
  qty : string;
  side : string
}.

Record Order := {
  order_symbol : string;
  order_side : string;
  order_type : string;
  order_qty : Z;
  time_in_force : string;
  limit_price : option float
}.

(** The request objects of the client library. *)
Inductive request :=
| GetAssetsRequest (status attrs : string)
| StockLatestTradeRequest (symbol_or_symbols : string)
| LimitOrderRequest (o : Order)
| MarketOrderRequest (o : Order).

Inductive client :=
| TradingClient
| StockHistoricalDataClient
| OptionHistoricalDataClient.

(** A piece of a printed line: text, or an object of the client library
    shown by its own [__str__]. *)
Inductive fragment :=
| Text (s : string)
| AssetText (a : Asset)
| PositionText (p : Position)
| DateText (d : date).

(** What a run does, in order. *)
Inductive event :=
| LoadDotenv
| Getenv (name : string)
| NewClient (c : client) (api_key secret_key : option string) (paper : option bool)
| NewRequest (r : request)
| Now
| GetAccount
| GetAccountConfigurations
| SetAccountConfigurations (c : AccountConfigurations)
| GetAllAssets (r : request)
| GetAsset (symbol : string)
| GetAllPositions
| GetStockLatestTrade (r : request)
| SubmitOrder (r : request)
| Print (line : list fragment).

(** An order is constructed by building an order request and submitted by
    [submit_order]. *)
Definition is_order_event (ev : event) : bool :=
  match ev with
  | NewRequest (LimitOrderRequest _) => true
  | NewRequest (MarketOrderRequest _) => true
  | SubmitOrder _ => true
  | _ => false
  end.

(** The environment once [.env] is loaded, the clock, and the brokerage's
    answers.  Only the account configuration is ever written. *)
Record World := {
  environ : string -> option string;
  clock : date;
  account : Account;
  configurations : AccountConfigurations;
  asset_listing : request -> list Asset;
  asset_of : string -> Asset;
  open_positions : list Position;
  latest_trade_price : string -> float
}.

Definition with_configurations (w : World) (c : AccountConfigurations) : World :=
  {| environ := environ w;
     clock := clock w;
     account := account w;
     configurations := c;
     asset_listing := asset_listing w;
     asset_of := asset_of w;
     open_positions := open_positions w;
     latest_trade_price := latest_trade_price w |}.

End Broker.

(** * The notebook *)

Module Notebook.
Import PyFloat PyDate Broker.

(** What a computation leaves behind: the events it logged, the world as it
    left it, and the value it finished with or the exception that stopped
    it.  What was logged and written before an exception stays. *)
Record run (A : Type) := {
  trace : list event;
  final : World;
  result : outcome A
}.
Arguments trace {A} r.
Arguments final {A} r.
Arguments result {A} r.

Definition M (A : Type) : Type := World -> run A.

Definition ret {A : Type} (a : A) : M A :=
  fun w => {| trace := []; final := w; result := Done a |}.

Definition bind {A B : Type} (m : M A) (k : A -> M B) : M B :=
  fun w =>
    let r := m w in
    match result r with
    | Done a =>
        let r' := k a (final r) in
        {| trace := trace r ++ trace r';
           final := final r';
           result := result r' |}
    | Raised e =>
        {| trace := trace r; final := final r; result := Raised e |}
    end.

Notation "x <- m ;; k" := (bind m (fun x => k))
  (at level 61, m at next level, right associativity).
Notation "m ;; k" := (bind m (fun _ => k))
  (at level 61, right associativity).

Definition emit (ev : event) : M unit :=
  fun w => {| trace := [ev]; final := w; result := Done tt |}.

Definition ask {A : Type} (ev : event) (answer : World -> A) : M A :=
  fun w => {| trace := [ev]; final := w; result := Done (answer w) |}.

Definition lift {A : Type} (r : outcome A) : M A :=
  fun w => {| trace := []; final := w; result := r |}.

(** ** The calls the notebook makes *)

Definition load_dotenv : M unit := emit LoadDotenv.

Definition getenv (name : string) : M (option string) :=
  ask (Getenv name) (fun w => environ w name).

Definition new_client (c : client) (api_key secret_key : option string)
    (paper : option bool) : M client :=
  emit (NewClient c api_key secret_key paper) ;; ret c.

Definition new_request (r : request) : M request :=
  emit (NewRequest r) ;; ret r.

(** [datetime.now().date()] *)
Definition now_date : M date := ask Now clock.

Definition get_account : M Account := ask GetAccount account.

Definition get_account_configurations : M AccountConfigurations :=
  ask GetAccountConfigurations configurations.

Definition set_account_configurations (c : AccountConfigurations) : M unit :=
  fun w =>
    {| trace := [SetAccountConfigurations c];
       final := with_configurations w c;
       result := Done tt |}.

Definition get_all_assets (r : request) : M (list Asset) :=
  ask (GetAllAssets r) (fun w => asset_listing w r).

Definition get_asset (symbol : string) : M Asset :=
  ask (GetAsset symbol) (fun w => asset_of w symbol).

Definition get_all_positions : M (list Position) :=
  ask GetAllPositions open_positions.

(** [get_stock_latest_trade(request)[symbol].price] *)
Definition get_stock_latest_trade (r : request) (symbol : string) : M float :=
  ask (GetStockLatestTrade r) (fun w => latest_trade_price w symbol).

Definition print (line : list fragment) : M unit := emit (Print line).

(** [x in xs] for an optional list of strings: [None] is not iterable. *)
Definition py_in (x : string) (xs : option (list string)) : outcome bool :=
  match xs with
  | None => Raised TypeError
  | Some l => Done (existsb (String.eqb x) l)
  end.

(** ** Cell 0: credentials *)

Definition cell_0 : M (option string * option string * bool) :=
  load_dotenv ;;
  api_key <- getenv "ALPACA_API_KEY" ;;
  secret_key <- getenv "ALPACA_SECRET_KEY" ;;
  ret (api_key, secret_key, true).

(** ** Cell 2: clients (cell 1 only imports) *)

Definition cell_2 (api_key secret_key : option string) (paper : bool) : M unit :=
  trade_client <- new_client TradingClient api_key secret_key (Some paper) ;;
  stock_data_client <- new_client StockHistoricalDataClient api_key secret_key None ;;
  option_data_client <- new_client OptionHistoricalDataClient api_key secret_key None ;;
  ret tt.

(** ** Cell 3: the account's option levels *)

Definition cell_3 : M Account :=
  acct <- get_account ;;
  print [Text ("Options Approved Level: "
               ++ str_optional str_int (options_approved_level acct))] ;;
  print [Text ("Options Trading Level: "
               ++ str_optional str_int (options_trading_level acct))] ;;
  print [Text ("Options Buying Power: "
               ++ str_optional (fun s => s) (options_buying_power acct))] ;;
  ret acct.

(** ** Cell 4: risk management *)

Definition set_max_options_trading_level (c : AccountConfigurations)
    (level : option Z) : AccountConfigurations :=
  {| max_options_trading_level := level;
     other_settings := other_settings c |}.

Definition cell_4 : M AccountConfigurations :=
  acct_config <- get_account_configurations ;;
  print [Text ("Max Options Trading Level: "
               ++ str_optional str_int (max_options_trading_level acct_config))] ;;
  let acct_config := set_max_options_trading_level acct_config (Some 1) in
  set_account_configurations acct_config ;;
  acct_config <- get_account_configurations ;;
  print [Text ("Max Options Trading Level: "
               ++ str_optional str_int (max_options_trading_level acct_config))] ;;
  ret acct_config.

(** ** Cell 5: underlyings with options *)

Definition cell_5 : M (string * Asset) :=
  req <- new_request (GetAssetsRequest "active" "options_enabled") ;;
  options_enabled_underlyings <- get_all_assets req ;;
  print [Text ("Number of Underlyings with Options: "
               ++ str_int (Z.of_nat (List.length options_enabled_underlyings)))] ;;
  let underlying_symbol := "TSLA"%string in
  underlying <- get_asset underlying_symbol ;;
  has_options <- lift (py_in "options_enabled" (attributes underlying)) ;;
  print [Text (underlying_symbol ++ " has options? " ++ str_bool has_options)] ;;
  ret (underlying_symbol, underlying).

(** ** Cell 6: call overwrite, what is in the account *)

Fixpoint print_each (positions : list Position) : M unit :=
  match positions with
  | [] => ret tt
  | p :: rest => print [PositionText p] ;; print_each rest
  end.

Definition cell_6 : M (list Position) :=
  positions <- get_all_positions ;;
  print_each positions ;;
  ret positions.

(** ** Cell 7: overwrite on TSLA *)

(** [str(round(underlying_last_price * 1.02, 2))], and the float it
    renders. *)
Definition min_strike_value (underlying_last_price : float) : float :=
  double_round (fmul underlying_last_price c_1_02) 2.

Definition min_strike_of (underlying_last_price : float) : string :=
  float_repr (min_strike_value underlying_last_price).

(** The variables the cell binds. *)
Record Overwrite := {
  today : date;
  min_expiration : date;
  max_expiration : date;
  underlying_last_price : float;
  min_strike : string
}.

Definition cell_7 (underlying_symbol : string) (underlying : Asset) : M Overwrite :=
  today <- now_date ;;
  min_expiration <- lift (date_add today {| days := 14 |}) ;;
  max_expiration <- lift (date_add today {| days := 90 |}) ;;
  underlying_trade_request <- new_request (StockLatestTradeRequest underlying_symbol) ;;
  underlying_last_price <-
    get_stock_latest_trade underlying_trade_request underlying_symbol ;;
  print [AssetText underlying;
         Text (" last trade price: " ++ float_repr underlying_last_price)] ;;
  let min_strike := min_strike_of underlying_last_price in
  print [Text "Min Expiration: "; DateText min_expiration] ;;
  print [Text "Max Expiration: "; DateText max_expiration] ;;
  ret {| today := today;
         min_expiration := min_expiration;
         max_expiration := max_expiration;
         underlying_last_price := underlying_last_price;
         min_strike := min_strike |}.

(** ** The whole notebook, run top to bottom *)

Definition notebook : M Overwrite :=
  keys <- cell_0 ;;
  let '(api_key, secret_key, paper) := keys in
  cell_2 api_key secret_key paper ;;
  cell_3 ;;
  cell_4 ;;
  found <- cell_5 ;;
  let '(underlying_symbol, underlying) := found in
  cell_6 ;;
  cell_7 underlying_symbol underlying.

(** ** Cells run by hand, in any order and any number of times

    Run by hand, a cell finds its names in the kernel: those that earlier
    cells have bound.  A name that no cell has bound yet is a [NameError],
    raised where the cell first reads it, with what the cell did before
    kept.  The names that one cell binds and another reads are the ones
    recorded here. *)

Record Kernel := {
  k_imports : bool;
  k_keys : option (option string * option string * bool);
  k_trade_client : bool;
  k_stock_data_client : bool;
  k_option_data_client : bool;
  k_underlying_symbol : option string;
  k_underlying : option Asset
}.

(** A kernel that has run nothing. *)
Definition fresh : Kernel :=
  {| k_imports := false;
     k_keys := None;
     k_trade_client := false;
     k_stock_data_client := false;
     k_option_data_client := false;
     k_underlying_symbol := None;
     k_underlying := None |}.

(** Cell 1 binds [datetime], [timedelta] and the classes of the client
    library. *)
Definition bind_imports (k : Kernel) : Kernel :=
  {| k_imports := true;
     k_keys := k_keys k;
     k_trade_client := k_trade_client k;
     k_stock_data_client := k_stock_data_client k;
     k_option_data_client := k_option_data_client k;
     k_underlying_symbol := k_underlying_symbol k;
     k_underlying := k_underlying k |}.

(** Cell 0 binds [api_key], [secret_key] and [paper]. *)
Definition bind_keys (keys : option string * option string * bool)
    (k : Kernel) : Kernel :=
  {| k_imports := k_imports k;
     k_keys := Some keys;
     k_trade_client := k_trade_client k;
     k_stock_data_client := k_stock_data_client k;
     k_option_data_client := k_option_data_client k;
     k_underlying_symbol := k_underlying_symbol k;
     k_underlying := k_underlying k |}.

(** Cell 2 binds [trade_client], [stock_data_client] and
    [option_data_client]. *)
Definition bind_clients (k : Kernel) : Kernel :=
  {| k_imports := k_imports k;
     k_keys := k_keys k;
     k_trade_client := true;
     k_stock_data_client := true;
     k_option_data_client := true;
     k_underlying_symbol := k_underlying_symbol k;
     k_underlying := k_underlying k |}.

Definition bind_underlying_symbol (symbol : string) (k : Kernel) : Kernel :=
  {| k_imports := k_imports k;
     k_keys := k_keys k;
     k_trade_client := k_trade_client k;
     k_stock_data_client := k_stock_data_client k;
     k_option_data_client := k_option_data_client k;
     k_underlying_symbol := Some symbol;
     k_underlying := k_underlying k |}.

Definition bind_underlying (a : Asset) (k : Kernel) : Kernel :=
  {| k_imports := k_imports k;
     k_keys := k_keys k;
     k_trade_client := k_trade_client k;
     k_stock_data_client := k_stock_data_client k;
     k_option_data_client := k_option_data_client k;
     k_underlying_symbol := k_underlying_symbol k;
     k_underlying := Some a |}.

(** What a cell run by hand leaves behind: as a [run], and the kernel. *)
Record krun (A : Type) := {
  k_trace : list event;
  k_world : World;
  k_names : Kernel;
  k_result : outcome A
}.
Arguments k_trace {A} _.
Arguments k_world {A} _.
Arguments k_names {A} _.
Arguments k_result {A} _.

Definition K (A : Type) : Type := Kernel -> World -> krun A.

Definition kret {A : Type} (a : A) : K A :=
  fun k w => {| k_trace := []; k_world := w; k_names := k; k_result := Done a |}.

Definition kbind {A B : Type} (m : K A) (f : A -> K B) : K B :=
  fun k w =>
    let r := m k w in
    match k_result r with
    | Done a =>
        let r' := f a (k_names r) (k_world r) in
        {| k_trace := k_trace r ++ k_trace r';
           k_world := k_world r';
           k_names := k_names r';
           k_result := k_result r' |}
    | Raised e =>
        {| k_trace := k_trace r;
           k_world := k_world r;
           k_names := k_names r;
           k_result := Raised e |}
    end.

Declare Scope kernel_scope.
Delimit Scope kernel_scope with kernel.
Notation "x <- m ;; f" := (kbind m (fun x => f))
  (at level 61, m at next level, right associativity) : kernel_scope.
Notation "m ;; f" := (kbind m (fun _ => f))
  (at level 61, right associativity) : kernel_scope.

(** A piece of a cell whose names are all bound. *)
Definition in_world {A : Type} (m : M A) : K A :=
  fun k w =>
    let r := m w in
    {| k_trace := trace r;
       k_world := final r;
       k_names := k;
       k_result := result r |}.

(** Reading a name. *)
Definition name {A : Type} (read : Kernel -> option A) : K A :=
  fun k w =>
    {| k_trace := [];
       k_world := w;
       k_names := k;
       k_result := match read k with
                   | Some a => Done a
                   | None => Raised NameError
                   end |}.

Definition bound (read : Kernel -> bool) : K unit :=
  name (fun k => if read k then Some tt else None).

(** An assignment. *)
Definition assign (write : Kernel -> Kernel) : K unit :=
  fun k w =>
    {| k_trace := []; k_world := w; k_names := write k; k_result := Done tt |}.

(** A key that the clients accept: set and not empty. *)
Definition usable (key : option string) : bool :=
  match key with
  | Some (String _ _) => true
  | _ => false
  end.

(** The clients of cell 2 refuse to be built without both keys
    ([ValueError]). *)
Definition check_keys (api_key secret_key : option string) : K unit :=
  fun k w =>
    {| k_trace := [];
       k_world := w;
       k_names := k;
       k_result := if usable api_key && usable secret_key then Done tt
                   else Raised ValueError |}.

(** A run with earlier events in front. *)
Definition after {A : Type} (t : list event) (r : krun A) : krun A :=
  {| k_trace := t ++ k_trace r;
     k_world := k_world r;
     k_names := k_names r;
     k_result := k_result r |}.

Definition kernel_cell_0 : K unit :=
  (keys <- in_world cell_0 ;;
   assign (bind_keys keys))%kernel.

Definition kernel_cell_1 : K unit := assign bind_imports.

Definition kernel_cell_2 : K unit :=
  (bound k_imports ;;
   keys <- name k_keys ;;
   let '(api_key, secret_key, paper) := keys in
   check_keys api_key secret_key ;;
   in_world (cell_2 api_key secret_key paper) ;;
   assign bind_clients)%kernel.

Definition kernel_cell_3 : K unit :=
  (bound k_trade_client ;;
   in_world cell_3 ;;
   kret tt)%kernel.

Definition kernel_cell_4 : K unit :=
  (bound k_trade_client ;;
   in_world cell_4 ;;
   kret tt)%kernel.

Definition kernel_cell_5 : K unit :=
  (bound k_imports ;;
   req <- in_world (new_request (GetAssetsRequest "active" "options_enabled")) ;;
   bound k_trade_client ;;
   options_enabled_underlyings <- in_world (get_all_assets req) ;;
   in_world
     (print [Text ("Number of Underlyings with Options: "
                   ++ str_int (Z.of_nat (List.length options_enabled_underlyings)))]) ;;
   assign (bind_underlying_symbol "TSLA") ;;
   underlying_symbol <- name k_underlying_symbol ;;
   underlying <- in_world (get_asset underlying_symbol) ;;
   assign (bind_underlying underlying) ;;
   has_options <- in_world (lift (py_in "options_enabled" (attributes underlying))) ;;
   in_world
     (print [Text (underlying_symbol ++ " has options? " ++ str_bool has_options)]))%kernel.

Definition kernel_cell_6 : K unit :=
  (bound k_trade_client ;;
   in_world cell_6 ;;
   kret tt)%kernel.

Definition kernel_cell_7 : K unit :=
  (bound k_imports ;;
   today <- in_world now_date ;;
   min_expiration <- in_world (lift (date_add today {| days := 14 |})) ;;
   max_expiration <- in_world (lift (date_add today {| days := 90 |})) ;;
   underlying_symbol <- name k_underlying_symbol ;;
   underlying_trade_request <-
     in_world (new_request (StockLatestTradeRequest underlying_symbol)) ;;
   bound k_stock_data_client ;;
   underlying_last_price <-
     in_world (get_stock_latest_trade underlying_trade_request underlying_symbol) ;;
   underlying <- name k_underlying ;;
   in_world
     (print [AssetText underlying;
             Text (" last trade price: " ++ float_repr underlying_last_price)]) ;;
   in_world (print [Text "Min Expiration: "; DateText min_expiration]) ;;
   in_world (print [Text "Max Expiration: "; DateText max_expiration]))%kernel.

Inductive cell :=
| Cell0 | Cell1 | Cell2 | Cell3 | Cell4 | Cell5 | Cell6 | Cell7.

Definition run_cell (c : cell) : K unit :=
  match c with
  | Cell0 => kernel_cell_0
  | Cell1 => kernel_cell_1
  | Cell2 => kernel_cell_2
  | Cell3 => kernel_cell_3
  | Cell4 => kernel_cell_4
  | Cell5 => kernel_cell_5
  | Cell6 => kernel_cell_6
  | Cell7 => kernel_cell_7
  end.

(** A cell that raises does not stop the session: the next one is run all
    the same, on the kernel and the world as the last one left them. *)
Fixpoint session_from (k : Kernel) (cells : list cell) (w : World)
  : list event * (Kernel * World) :=
  match cells with
  | [] => ([], (k, w))
  | c :: rest =>
      let r := run_cell c k w in
      let '(t, kw) := session_from (k_names r) rest (k_world r) in
      (k_trace r ++ t, kw)
  end.

(** A session starts on a fresh kernel. *)
Definition session (cells : list cell) (w : World) : list event * World :=
  let '(t, (_, w')) := session_from fresh cells w in (t, w').

(** The notebook from top to bottom. *)
Definition top_to_bottom : list cell :=
  [Cell0; Cell1; Cell2; Cell3; Cell4; Cell5; Cell6; Cell7].

(** ** What a run shows *)

(** The lines a run prints, and the ceilings it writes to the account. *)
Definition printed (t : list event) : list (list fragment) :=
  flat_map (fun ev => match ev with Print line => [line] | _ => [] end) t.

Definition written_levels (t : list event) : list (option Z) :=
  flat_map
    (fun ev =>
       match ev with
       | SetAccountConfigurations c => [max_options_trading_level c]
       | _ => []
       end) t.

(** The number of times a run reads the clock. *)
Definition clock_reads (t : list event) : nat :=
  List.length (filter (fun ev => match ev with Now => true | _ => false end) t).

(** Every event of every run of [m] satisfies [P]. *)
Definition always {A : Type} (P : event -> Prop) (m : M A) : Prop :=
  forall w, Forall P (trace (m w)).

(** The same of a cell run by hand, on every kernel. *)
Definition kalways {A : Type} (P : event -> Prop) (m : K A) : Prop :=
  forall k w, Forall P (k_trace (m k w)).

(** The events that a cell of the notebook can log: no order request, no
    order submitted, and no ceiling written but 1. *)
Definition notebook_event (ev : event) : Prop :=
  match ev with
  | NewRequest (LimitOrderRequest _) => False
  | NewRequest (MarketOrderRequest _) => False
  | SubmitOrder _ => False
  | SetAccountConfigurations c => max_options_trading_level c = Some 1
  | _ => True
  end.

(** Both ends of the window are dates exactly when the later one is. *)
Definition window_fits (d : date) : Prop :=
  0 < toordinal d + 14 /\ toordinal d + 90 <= MAXORDINAL.

(** ** The account across cells *)

(** The risk management cell is the only one with a call that writes. *)
Definition is_risk_cell (c : cell) : bool :=
  match c with
  | Cell4 => true
  | _ => false
  end.

(** The world once the ceiling of the account has been set to 1. *)
Definition capped (w : World) : World :=
  with_configurations w
    (set_max_options_trading_level (configurations w) (Some 1)).

(** The same brokerage and clock under another environment. *)
Definition with_environ (w : World) (env : string -> option string) : World :=
  {| environ := env;
     clock := clock w;
     account := account w;
     configurations := configurations w;
     asset_listing := asset_listing w;
     asset_of := asset_of w;
     open_positions := open_positions w;
     latest_trade_price := latest_trade_price w |}.

(** Both keys are set and not empty, which is what the clients of cell 2
    need to be built. *)
Definition credentials_set (env : string -> option string) : Prop :=
  exists api_key secret_key,
    env "ALPACA_API_KEY"%string = Some api_key
    /\ env "ALPACA_SECRET_KEY"%string = Some secret_key
    /\ api_key <> EmptyString
    /\ secret_key <> EmptyString.

(** The events that carry the keys. *)
Definition carries_keys (ev : event) : bool :=
  match ev with
  | NewClient _ _ _ _ => true
  | _ => false
  end.

(** What cell 5 logs before it looks at the attributes of the underlying. *)
Definition cell_5_head (w : World) : list event :=
  [NewRequest (GetAssetsRequest "active" "options_enabled");
   GetAllAssets (GetAssetsRequest "active" "options_enabled");
   Print [Text ("Number of Underlyings with Options: "
                ++ str_int
                     (Z.of_nat
                        (List.length
                           (asset_listing w
                              (GetAssetsRequest "active" "options_enabled")))))];
   GetAsset "TSLA"].

(** The calls to the brokerage for market data. *)
Definition is_trade_request (ev : event) : bool :=
  match ev with
  | GetStockLatestTrade _ => true
  | _ => false
  end.

End Notebook.

(** * What the specification describes next to the notebook *)

Module Spec.
Import PyFloat PyDate.

(** ** Half-up rounding of the minimum strike

    Follows the spec's words, for comparison with [min_strike_value]:
    "last_price × 1.02 ..., rounded to 2 decimal places using standard
    half-up rounding". *)

Definition round_half_up (num den : Z) : Z := (2 * num + den) / (2 * den).

(** Half-up on the exact product of the price and the decimal 1.02. *)
Definition half_up_min_strike (last_price : float) : float :=
  match last_price with
  | S754_finite s m e =>
      let '(num, den) := scaled_ratio 2 m e in
      match round_half_up (num * 102) (den * 100) with
      | Zpos n => float_of_ratio s n 100
      | _ => S754_zero s
      end
  | _ => last_price
  end.

(** Half-up on the float product that the notebook computes. *)
Definition half_up_of_product (last_price : float) : float :=
  match fmul last_price c_1_02 with
  | S754_finite s m e =>
      let '(num, den) := scaled_ratio 2 m e in
      match round_half_up num den with
      | Zpos n => float_of_ratio s n 100
      | _ => S754_zero s
      end
  | x => x
  end.

(** ** The eligibility filter

    Modelled from the spec: the notebook imports [ContractType] and
    [GetOptionContractsRequest] but never fetches a contract; the records
    below are the OptionContract and ExpirationWindow of the spec's data
    model, with a decimal strike as a rational. *)

Inductive ContractType := CALL | PUT.

Definition ContractType_eqb (a b : ContractType) : bool :=
  match a, b with
  | CALL, CALL => true
  | PUT, PUT => true
  | _, _ => false
  end.

Record OptionContract := {
  symbol : string;
  underlying_symbol : string;
  contract_type : ContractType;
  strike_price : Q;
  expiration_date : date
}.

Record ExpirationWindow := {
  min_date : date;
  max_date : date
}.

Definition date_le (a b : date) : Prop := toordinal a <= toordinal b.
Definition date_leb (a b : date) : bool := toordinal a <=? toordinal b.

(** The filtering predicate of the spec, as a proposition and as the test
    the filter runs. *)
Definition eligible (window : ExpirationWindow) (min_strike : Q)
    (type : ContractType) (contract : OptionContract) : Prop :=
  contract_type contract = type
  /\ date_le (min_date window) (expiration_date contract)
  /\ date_le (expiration_date contract) (max_date window)
  /\ (min_strike <= strike_price contract)%Q.

Definition eligibleb (window : ExpirationWindow) (min_strike : Q)
    (type : ContractType) (contract : OptionContract) : bool :=
  ContractType_eqb (contract_type contract) type
  && date_leb (min_date window) (expiration_date contract)
  && date_leb (expiration_date contract) (max_date window)
  && Qle_bool min_strike (strike_price contract).

(** Modelled from the spec: the notebook has no [select] (it stops after
    computing the expiration window and the strike threshold, before any
    contract is fetched); this is the filter of the spec's section 4.1,
    one pass over the contracts that keeps those passing the predicate. *)
Fixpoint select (contracts : list OptionContract) (window : ExpirationWindow)
    (min_strike : Q) (type : ContractType) : list OptionContract :=
  match contracts with
  | [] => []
  | contract :: rest =>
      if eligibleb window min_strike type contract
      then contract :: select rest window min_strike type
      else select rest window min_strike type
  end.

End Spec.

(** * Sample runs *)

Module Samples.
Import PyFloat PyDate Broker Notebook Spec.

Definition tsla : Asset := {| asset_symbol := "TSLA"; attributes := Some [] |}.

(** A world that answers as the brokerage did when the notebook's stored
    outputs were produced, with the ceiling, the day and the last price of
    TSLA left open. *)
Definition world (level : option Z) (day : date) (price : float) : World :=
  {| environ := fun _ => Some "secret"%string;
     clock := day;
     account := {| options_approved_level := Some 2;
                   options_trading_level := Some 2;
                   options_buying_power := Some "100000"%string |};
     configurations := {| max_options_trading_level := level;
                          other_settings := [] |};
     asset_listing := fun _ => repeat tsla (Z.to_nat 5773);
     asset_of := fun _ => tsla;
     open_positions := [];
     latest_trade_price := fun _ => price |}.

Definition new_year_2024 : date := date_of 2024 1 1.

Definition f_250 : float := float_of_ratio false 250 1.
Definition f_1_25 : float := float_of_ratio false 125 100.
Definition f_0_001 : float := float_of_ratio false 1 1000.
Definition f_minus_5 : float := float_of_ratio true 5 1.
Definition f_tie : float := float_of_ratio false 6127450980392157 10000000000000000.

(** The contracts and the window of the spec's end-to-end scenario. *)
Definition contract (type : ContractType) (strike : Z) (expiration : date)
  : OptionContract :=
  {| symbol := "TSLA-option";
     underlying_symbol := "TSLA";
     contract_type := type;
     strike_price := inject_Z strike;
     expiration_date := expiration |}.

Definition scenario_window : ExpirationWindow :=
  {| min_date := date_of 2024 1 15; max_date := date_of 2024 4 1 |}.

Definition scenario_contracts : list OptionContract :=
  [contract CALL 256 (date_of 2024 2 1);
   contract CALL 254 (date_of 2024 2 1);
   contract PUT 260 (date_of 2024 2 1);
   contract CALL 260 (date_of 2024 5 1)].

End Samples.

(** * Facts about the float operations *)

Module PyFloatFacts.
Import PyFloat.

(** The literal [1.02] is the float [0x1.051eb851eb852p+0], within half a
    unit in the last place of 102/100. *)
Lemma c_1_02_bits : c_1_02 = S754_finite false 4593671619917906 (-52).
Proof. reflexivity. Qed.

Lemma c_1_02_nearest :
  2 * Z.abs (4593671619917906 * 100 - 102 * 2 ^ 52) <= 100.
Proof. vm_compute. discriminate. Qed.

(** ** Rounding to the nearest integer, ties to even *)

Lemma round_half_even_cases (num den : Z) :
  0 < den ->
  let q := num / den in
  let r := num mod den in
  (2 * r < den /\ round_half_even num den = q)
  \/ (den < 2 * r /\ round_half_even num den = q + 1)
  \/ (2 * r = den /\ Z.even q = true /\ round_half_even num den = q)
  \/ (2 * r = den /\ Z.even q = false /\ round_half_even num den = q + 1).
Proof.
  intros Hden q r. unfold round_half_even. fold q. fold r.
  destruct (Z.compare_spec (2 * r) den) as [E | L | G].
  - destruct (Z.even q) eqn:Ev; [right; right; left | right; right; right]; auto.
  - left. auto.
  - right. left. auto.
Qed.

Lemma round_half_even_nearest (num den : Z) :
  0 < den ->
  2 * Z.abs (num - round_half_even num den * den) <= den
  /\ (2 * Z.abs (num - round_half_even num den * den) = den ->
      Z.even (round_half_even num den) = true).
Proof.
  intros Hden.
  pose proof (Z.div_mod num den ltac:(lia)) as Hdm.
  pose proof (Z.mod_pos_bound num den Hden) as Hr.
  destruct (round_half_even_cases num den Hden)
    as [[H ->] | [[H ->] | [[H [Ev ->]] | [H [Ev ->]]]]].
  - split; [lia | intros; lia].
  - split; [lia | intros; lia].
  - split; [lia | intros; exact Ev].
  - split; [lia | intros _].
    rewrite Z.even_add, Ev. reflexivity.
Qed.

Lemma round_half_even_nonneg (num den : Z) :
  0 <= num -> 0 < den -> 0 <= round_half_even num den.
Proof.
  intros Hnum Hden.
  pose proof (Z.div_pos num den Hnum Hden) as Hq.
  destruct (round_half_even_cases num den Hden)
    as [[_ ->] | [[_ ->] | [[_ [_ ->]] | [_ [_ ->]]]]]; lia.
Qed.

(** Away from an exact tie, ties-to-even and half-up agree. *)
Lemma round_half_even_half_up (num den : Z) :
  0 < den ->
  2 * (num mod den) <> den ->
  round_half_even num den = Spec.round_half_up num den.
Proof.
  intros Hden Hne. unfold Spec.round_half_up.
  pose proof (Z.div_mod num den ltac:(lia)) as Hdm.
  pose proof (Z.mod_pos_bound num den Hden) as Hr.
  destruct (round_half_even_cases num den Hden)
    as [[H ->] | [[H ->] | [[H _] | [H _]]]]; try contradiction;
    revert Hdm Hr H; generalize (num / den) (num mod den); intros q r Hdm Hr H.
  - apply Z.div_unique with (r := 2 * r + den); [lia | rewrite Hdm; ring].
  - apply Z.div_unique with (r := 2 * r - den); [lia | rewrite Hdm; ring].
Qed.

Lemma scaled_ratio_pos (ndigits : Z) (m : positive) (e : Z) :
  0 <= fst (scaled_ratio ndigits m e) /\ 0 < snd (scaled_ratio ndigits m e).
Proof.
  unfold scaled_ratio.
  assert (0 <= 10 ^ ndigits) by (apply Z.pow_nonneg; lia).
  destruct (0 <=? e) eqn:He; cbn [fst snd].
  - assert (0 <= 2 ^ e) by (apply Z.pow_nonneg; lia). split; nia.
  - apply Z.leb_gt in He.
    assert (0 < 2 ^ (- e)) by (apply Z.pow_pos_nonneg; lia). split; nia.
Qed.

(** ** The sign of a result *)

Lemma iter_pos_invariant {A : Type} (P : A -> Prop) (f : A -> A) :
  (forall x, P x -> P (f x)) ->
  forall n x, P x -> P (iter_pos f n x).
Proof.
  intros Hf. induction n as [n IH | n IH |]; intros x Hx; simpl; auto.
Qed.

Lemma shr_1_nonneg (mrs : shr_record) :
  0 <= shr_m mrs -> 0 <= shr_m (shr_1 mrs).
Proof.
  destruct mrs as [m r s]. simpl. intros Hm.
  destruct m as [| [p | p |] | p]; simpl; lia.
Qed.

Lemma shr_nonneg (mrs : shr_record) (e n : Z) :
  0 <= shr_m mrs -> 0 <= shr_m (fst (shr mrs e n)).
Proof.
  intros Hm. unfold shr. destruct n as [| p | p]; simpl; auto.
  apply iter_pos_invariant with (P := fun x => 0 <= shr_m x); auto.
  apply shr_1_nonneg.
Qed.

Lemma shr_fexp_nonneg (m e : Z) (l : location) :
  0 <= m -> 0 <= shr_m (fst (shr_fexp prec emax m e l)).
Proof.
  intros Hm. unfold shr_fexp. apply shr_nonneg.
  destruct l as [| []]; simpl; exact Hm.
Qed.

Lemma round_nearest_even_nonneg (m : Z) (l : location) :
  0 <= m -> 0 <= round_nearest_even m l.
Proof.
  intros Hm. unfold round_nearest_even.
  destruct l as [| []]; try lia. destruct (Z.even m); lia.
Qed.

(** Rounding a non-negative significand keeps the sign it is given: the
    result is a zero, a finite float or an infinity of that sign. *)
Lemma binary_round_aux_sign (s : bool) (m e : Z) (l : location) :
  0 <= m -> sign_is s (binary_round_aux prec emax s m e l).
Proof.
  intros Hm. unfold binary_round_aux.
  pose proof (shr_fexp_nonneg m e l Hm) as H1.
  destruct (shr_fexp prec emax m e l) as [mrs' e'].
  simpl in H1.
  pose proof (shr_fexp_nonneg
                (round_nearest_even (shr_m mrs') (loc_of_shr_record mrs'))
                e' loc_Exact
                (round_nearest_even_nonneg _ _ H1)) as H2.
  destruct (shr_fexp prec emax _ e' loc_Exact) as [mrs'' e''].
  simpl in H2.
  destruct (shr_m mrs'') as [| p | p]; simpl; auto; try lia.
  destruct (e'' <=? _); simpl; reflexivity.
Qed.

Lemma float_of_ratio_sign (s : bool) (num den : positive) :
  sign_is s (float_of_ratio s num den).
Proof.
  unfold float_of_ratio, SFdiv, SFdiv_core_binary.
  set (e' := Z.min _ _). set (sh := 0 - 0 - e').
  set (m' := match sh with Z.pos _ => _ | _ => _ end).
  assert (Hm' : 0 <= m').
  { unfold m'. destruct sh; try lia. apply Z.shiftl_nonneg. lia. }
  pose proof (Z.div_pos m' (Zpos den) Hm' ltac:(lia)) as Hq.
  unfold Z.div in Hq.
  destruct (Z.div_eucl m' (Z.pos den)) as [q r]. simpl in Hq.
  rewrite xorb_false_r. apply binary_round_aux_sign. exact Hq.
Qed.

Lemma fmul_c_1_02_sign (s : bool) (p : float) :
  sign_is s p -> sign_is s (fmul p c_1_02).
Proof.
  destruct p as [s' | s' | | s' m e]; simpl; intros H; try contradiction;
    subst s'; try (destruct s; reflexivity).
  rewrite xorb_false_r. apply binary_round_aux_sign. lia.
Qed.

Lemma double_round_sign (s : bool) (x : float) (ndigits : Z) :
  sign_is s x -> sign_is s (double_round x ndigits).
Proof.
  destruct x as [s' | s' | | s' m e]; simpl; intros H; try contradiction;
    subst s'; try reflexivity.
  destruct (scaled_ratio ndigits m e) as [num den].
  destruct (round_half_even num den); simpl; try reflexivity.
  apply float_of_ratio_sign.
Qed.

Lemma positive_sign (p : float) : flt fzero p = true -> sign_is false p.
Proof.
  destruct p as [s | [] | | [] m e]; simpl; try discriminate; reflexivity.
Qed.

Lemma sign_nonneg (x : float) : sign_is false x -> fle fzero x = true.
Proof.
  destruct x as [s | s | | s m e]; simpl; intros H; try contradiction;
    subst; reflexivity.
Qed.

Lemma sign_nonpos (x : float) : sign_is true x -> fle x fzero = true.
Proof.
  destruct x as [s | s | | s m e]; simpl; intros H; try contradiction;
    subst; reflexivity.
Qed.

(** ** Results that are not zero *)

Lemma digits2_log2 (p : positive) :
  Zpos (digits2_pos p) = Z.log2 (Zpos p) + 1.
Proof.
  induction p as [p IH | p IH |]; [| | reflexivity];
    cbn [digits2_pos]; rewrite Pos2Z.inj_succ, IH.
  - rewrite Pos2Z.inj_xI, Z.log2_succ_double by lia. lia.
  - rewrite Pos2Z.inj_xO, Z.log2_double by lia. lia.
Qed.

Lemma Zdigits2_log2 (m : Z) : 0 < m -> Zdigits2 m = Z.log2 m + 1.
Proof. destruct m; try lia. intros _. apply digits2_log2. Qed.

Lemma shr_1_half (mrs : shr_record) :
  0 <= shr_m mrs -> shr_m (shr_1 mrs) = shr_m mrs / 2.
Proof.
  destruct mrs as [m r s]. cbn [shr_m shr_1]. intros Hm.
  destruct m as [| [p | p |] | p]; cbn [shr_m]; try lia; try reflexivity.
  - rewrite Pos2Z.inj_xI. apply Z.div_unique with (r := 1); lia.
  - rewrite Pos2Z.inj_xO. apply Z.div_unique with (r := 0); lia.
Qed.

Lemma iter_shr_1 (n : positive) (mrs : shr_record) :
  0 <= shr_m mrs ->
  shr_m (iter_pos shr_1 n mrs) = shr_m mrs / 2 ^ Zpos n.
Proof.
  revert mrs. induction n as [n IH | n IH |]; intros mrs Hm; cbn [iter_pos].
  - pose proof (shr_1_nonneg mrs Hm) as H1.
    assert (H2 : 0 <= shr_m (iter_pos shr_1 n (shr_1 mrs)))
      by (apply iter_pos_invariant with (P := fun x => 0 <= shr_m x);
          auto using shr_1_nonneg).
    rewrite IH, IH, shr_1_half by assumption.
    rewrite !Z.div_div by (try apply Z.pow_pos_nonneg; lia).
    f_equal. rewrite <- Z.pow_add_r, <- Z.pow_succ_r by lia. f_equal. lia.
  - assert (H2 : 0 <= shr_m (iter_pos shr_1 n mrs))
      by (apply iter_pos_invariant with (P := fun x => 0 <= shr_m x);
          auto using shr_1_nonneg).
    rewrite IH, IH by assumption.
    rewrite !Z.div_div by (try apply Z.pow_pos_nonneg; lia).
    f_equal. rewrite <- Z.pow_add_r by lia. f_equal. lia.
  - rewrite shr_1_half by assumption. reflexivity.
Qed.

(** A significand that is not below the least subnormal keeps a digit. *)
Lemma shr_fexp_positive (m e : Z) (l : location) :
  0 < m -> 3 - emax - prec <= e + Z.log2 m ->
  let r := shr_fexp prec emax m e l in
  0 < shr_m (fst r)
  /\ 3 - emax - prec <= snd r + Z.log2 (shr_m (fst r)).
Proof.
  intros Hm Hmag. unfold shr_fexp, fexp, SpecFloat.emin.
  rewrite Zdigits2_log2 by assumption.
  set (n := Z.max (Z.log2 m + 1 + e - prec) (3 - emax - prec) - e).
  assert (Hn : n <= Z.log2 m) by (unfold n, prec, emax in *; lia).
  assert (Hshr : shr_m (shr_record_of_loc m l) = m)
    by (destruct l as [| []]; reflexivity).
  unfold shr. destruct n as [| p | p] eqn:En; cbn [fst snd];
    rewrite ?Hshr; try (split; assumption).
  rewrite iter_shr_1 by (rewrite Hshr; lia). rewrite Hshr.
  rewrite <- Z.shiftr_div_pow2 by lia.
  assert (Hlog : Z.log2 (Z.shiftr m (Z.pos p)) = Z.log2 m - Z.pos p)
    by (rewrite Z.log2_shiftr by assumption; lia).
  split.
  - rewrite Z.shiftr_div_pow2 by lia.
    apply Z.div_str_pos. split; [apply Z.pow_pos_nonneg; lia |].
    apply Z.log2_le_pow2; lia.
  - rewrite Hlog. lia.
Qed.

Lemma round_nearest_even_ge (m : Z) (l : location) :
  m <= round_nearest_even m l.
Proof.
  unfold round_nearest_even. destruct l as [| []]; try lia.
  destruct (Z.even m); lia.
Qed.

(** Rounding a significand that is not below the least subnormal never
    gives a zero. *)
Lemma binary_round_aux_nonzero (s : bool) (m e : Z) (l : location) :
  0 < m -> 3 - emax - prec <= e + Z.log2 m ->
  match binary_round_aux prec emax s m e l with
  | S754_finite s' _ _ | S754_infinity s' => s' = s
  | _ => False
  end.
Proof.
  intros Hm Hmag. unfold binary_round_aux.
  pose proof (shr_fexp_positive m e l Hm Hmag) as [H1 H1'].
  destruct (shr_fexp prec emax m e l) as [mrs' e']. cbn [fst snd] in *.
  pose proof (round_nearest_even_ge (shr_m mrs') (loc_of_shr_record mrs'))
    as Hge.
  assert (Hmag2 : 3 - emax - prec
                  <= e' + Z.log2 (round_nearest_even (shr_m mrs')
                                    (loc_of_shr_record mrs'))).
  { pose proof (Z.log2_le_mono _ _ Hge) as Hle.
    revert H1' Hle. generalize (Z.log2 (shr_m mrs')).
    generalize (Z.log2 (round_nearest_even (shr_m mrs')
                          (loc_of_shr_record mrs'))).
    intros. lia. }
  assert (Hpos : 0 < round_nearest_even (shr_m mrs') (loc_of_shr_record mrs'))
    by lia.
  pose proof (shr_fexp_positive _ e' loc_Exact Hpos Hmag2) as [H2 _].
  destruct (shr_fexp prec emax _ e' loc_Exact) as [mrs'' e''].
  cbn [fst] in H2.
  destruct (shr_m mrs'') as [| q | q]; try lia.
  destruct (e'' <=? _); reflexivity.
Qed.

Lemma float_of_hundredths_positive (s : bool) (k : positive) :
  match float_of_ratio s k 100 with
  | S754_finite s' _ _ | S754_infinity s' => s' = s
  | _ => False
  end.
Proof.
  unfold float_of_ratio, SFdiv, SFdiv_core_binary.
  change (Zdigits2 (Z.pos 100)) with 7.
  rewrite Zdigits2_log2 by lia.
  pose proof (Z.log2_nonneg (Z.pos k)) as Hlog.
  pose proof (Z.log2_spec (Z.pos k) ltac:(lia)) as [Hlow _].
  set (e' := Z.min _ _).
  assert (He' : e' = Z.min (Z.log2 (Z.pos k) - 59) 0)
    by (unfold e', fexp, SpecFloat.emin, prec, emax; lia).
  set (sh := 0 - 0 - e').
  set (m' := match sh with Z.pos _ => _ | _ => _ end).
  assert (Hm' : 2 ^ 59 <= m').
  { unfold m'. destruct sh as [| p | p] eqn:Esh.
    - assert (59 <= Z.log2 (Z.pos k)) by lia.
      apply Z.le_trans with (2 ^ Z.log2 (Z.pos k)); [| lia].
      apply Z.pow_le_mono_r; lia.
    - rewrite Z.shiftl_mul_pow2 by lia.
      assert (Hp : Z.pos p = 59 - Z.log2 (Z.pos k)) by lia.
      rewrite Hp.
      replace 59 with (Z.log2 (Z.pos k) + (59 - Z.log2 (Z.pos k))) at 1
        by lia.
      rewrite Z.pow_add_r by lia.
      apply Z.mul_le_mono_nonneg_r; [apply Z.pow_nonneg; lia | exact Hlow].
    - lia. }
  assert (Hq : 0 < m' / 100).
  { apply Z.div_str_pos. change (2 ^ 59) with 576460752303423488 in Hm'. lia. }
  unfold Z.div in Hq.
  destruct (Z.div_eucl m' 100) as [q r]. cbn [fst] in Hq.
  rewrite xorb_false_r. apply binary_round_aux_nonzero; [exact Hq |].
  pose proof (Z.log2_nonneg q). unfold prec, emax in *. lia.
Qed.

Lemma round_half_even_positive (num den : Z) :
  0 <= num -> 0 < den -> den < 2 * num -> 0 < round_half_even num den.
Proof.
  intros Hnum Hden Habove.
  pose proof (Z.div_mod num den ltac:(lia)) as Hdm.
  pose proof (Z.mod_pos_bound num den Hden) as Hr.
  pose proof (Z.div_pos num den Hnum Hden) as Hq.
  destruct (round_half_even_cases num den Hden)
    as [[H ->] | [[H ->] | [[H [_ ->]] | [H [_ ->]]]]]; try lia;
    revert Hdm Hr H Hq; generalize (num / den) (num mod den);
    intros q r Hdm Hr H Hq;
    (assert (q = 0 \/ 1 <= q) as [-> | Hq1] by lia; [| lia]);
    rewrite Z.mul_0_r in Hdm; lia.
Qed.

End PyFloatFacts.

(** * Facts about runs of the notebook *)

Module NotebookFacts.
Import PyFloat PyDate Broker Notebook PyFloatFacts.

Section Always.
Variable P : event -> Prop.

Lemma always_ret {A : Type} (a : A) : always P (ret a).
Proof. intros w. constructor. Qed.

Lemma always_bind {A B : Type} (m : M A) (k : A -> M B) :
  always P m -> (forall a, always P (k a)) -> always P (bind m k).
Proof.
  intros Hm Hk w. unfold bind. specialize (Hm w).
  destruct (m w) as [t w' [a | e]]; simpl in *.
  - apply Forall_app. split; [assumption | apply Hk].
  - assumption.
Qed.

Lemma always_emit (ev : event) : P ev -> always P (emit ev).
Proof. intros H w. repeat constructor. exact H. Qed.

Lemma always_ask {A : Type} (ev : event) (answer : World -> A) :
  P ev -> always P (ask ev answer).
Proof. intros H w. repeat constructor. exact H. Qed.

Lemma always_lift {A : Type} (r : outcome A) : always P (lift r).
Proof. intros w. constructor. Qed.

Lemma always_set (c : AccountConfigurations) :
  P (SetAccountConfigurations c) -> always P (set_account_configurations c).
Proof. intros H w. repeat constructor. exact H. Qed.

Lemma always_print_each (positions : list Position) :
  (forall line, P (Print line)) -> always P (print_each positions).
Proof.
  intros H. induction positions as [| p rest IH]; simpl.
  - apply always_ret.
  - apply always_bind; [apply always_emit, H | intros _; exact IH].
Qed.

End Always.

(** ** The risk management cell, on any account *)

Lemma cell_4_run (w : World) :
  cell_4 w =
  let old := configurations w in
  let new := set_max_options_trading_level old (Some 1) in
  {| trace :=
       [GetAccountConfigurations;
        Print [Text ("Max Options Trading Level: "
                     ++ str_optional str_int (max_options_trading_level old))];
        SetAccountConfigurations new;
        GetAccountConfigurations;
        Print [Text "Max Options Trading Level: 1"]];
     final := with_configurations w new;
     result := Done new |}.
Proof. reflexivity. Qed.

(** ** The overwrite cell, on any day and any price *)

Lemma cell_7_run (underlying_symbol : string) (underlying : Asset) (w : World) :
  cell_7 underlying_symbol underlying w =
  match date_add (clock w) {| days := 14 |},
        date_add (clock w) {| days := 90 |} with
  | Done lo, Done hi =>
      let price := latest_trade_price w underlying_symbol in
      {| trace :=
           [Now;
            NewRequest (StockLatestTradeRequest underlying_symbol);
            GetStockLatestTrade (StockLatestTradeRequest underlying_symbol);
            Print [AssetText underlying;
                   Text (" last trade price: " ++ float_repr price)];
            Print [Text "Min Expiration: "; DateText lo];
            Print [Text "Max Expiration: "; DateText hi]];
         final := w;
         result := Done {| today := clock w;
                           min_expiration := lo;
                           max_expiration := hi;
                           underlying_last_price := price;
                           min_strike := min_strike_of price |} |}
  | Done _, Raised e => {| trace := [Now]; final := w; result := Raised e |}
  | Raised e, _ => {| trace := [Now]; final := w; result := Raised e |}
  end.
Proof.
  cbv beta iota zeta
      delta [cell_7 bind now_date ask lift result trace final new_request
             get_stock_latest_trade print emit ret].
  destruct (date_add (clock w) {| days := 14 |}) as [lo | e1];
    [destruct (date_add (clock w) {| days := 90 |}) as [hi | e2] |];
    reflexivity.
Qed.

(** The cell finishes exactly when the window fits among the dates. *)
Lemma cell_7_outcome (underlying_symbol : string) (underlying : Asset)
    (w : World) :
  let price := latest_trade_price w underlying_symbol in
  (window_fits (clock w)
   /\ clock_reads (trace (cell_7 underlying_symbol underlying w)) = 1%nat
   /\ result (cell_7 underlying_symbol underlying w)
      = Done {| today := clock w;
                min_expiration := {| toordinal := toordinal (clock w) + 14 |};
                max_expiration := {| toordinal := toordinal (clock w) + 90 |};
                underlying_last_price := price;
                min_strike := min_strike_of price |})
  \/ (~ window_fits (clock w)
      /\ clock_reads (trace (cell_7 underlying_symbol underlying w)) = 1%nat
      /\ result (cell_7 underlying_symbol underlying w) = Raised OverflowError).
Proof.
  intros price. rewrite cell_7_run. unfold window_fits, date_add.
  cbn [toordinal days].
  destruct (Z.ltb_spec 0 (toordinal (clock w) + 14));
    destruct (Z.leb_spec (toordinal (clock w) + 14) MAXORDINAL);
    destruct (Z.ltb_spec 0 (toordinal (clock w) + 90));
    destruct (Z.leb_spec (toordinal (clock w) + 90) MAXORDINAL);
    cbn [andb];
    first [ left; split; [lia | split; reflexivity]
          | right; split; [lia | split; reflexivity] ].
Qed.

(** ** Events that no cell produces *)

Ltac open_cells :=
  unfold notebook, cell_0, cell_2, cell_3, cell_4, cell_5, cell_6, cell_7,
    load_dotenv, getenv, new_client, new_request, now_date, get_account,
    get_account_configurations, get_all_assets, get_asset, get_all_positions,
    get_stock_latest_trade, print.

Ltac always_step :=
  first
    [ apply always_ret
    | apply always_lift
    | apply always_bind; [| intros ?]
    | apply always_emit
    | apply always_ask
    | apply always_set
    | apply always_print_each; intros ?
    | match goal with
      | |- always _ (let '(_, _) := ?x in _) => destruct x
      end ].

Lemma notebook_events : always notebook_event notebook.
Proof. open_cells. repeat always_step; simpl; auto. Qed.

Section KAlways.
Variable P : event -> Prop.

Lemma kalways_ret {A : Type} (a : A) : kalways P (kret a).
Proof. intros k w. constructor. Qed.

Lemma kalways_bind {A B : Type} (m : K A) (f : A -> K B) :
  kalways P m -> (forall a, kalways P (f a)) -> kalways P (kbind m f).
Proof.
  intros Hm Hf k w. unfold kbind. specialize (Hm k w).
  destruct (m k w) as [t w' k' [a | e]]; simpl in *.
  - apply Forall_app. split; [assumption | apply Hf].
  - assumption.
Qed.

Lemma kalways_in_world {A : Type} (m : M A) :
  always P m -> kalways P (in_world m).
Proof. intros Hm k w. apply Hm. Qed.

Lemma kalways_name {A : Type} (read : Kernel -> option A) :
  kalways P (name read).
Proof. intros k w. constructor. Qed.

Lemma kalways_bound (read : Kernel -> bool) : kalways P (bound read).
Proof. intros k w. constructor. Qed.

Lemma kalways_assign (write : Kernel -> Kernel) : kalways P (assign write).
Proof. intros k w. constructor. Qed.

Lemma kalways_check_keys (api_key secret_key : option string) :
  kalways P (check_keys api_key secret_key).
Proof. intros k w. constructor. Qed.

End KAlways.

Ltac kalways_step :=
  first
    [ apply kalways_ret
    | apply kalways_name
    | apply kalways_bound
    | apply kalways_assign
    | apply kalways_check_keys
    | apply kalways_bind; [| intros ?]
    | apply kalways_in_world
    | match goal with
      | |- kalways _ (let '(_, _) := ?x in _) => destruct x
      end
    | always_step ].

Lemma run_cell_events (c : cell) : kalways notebook_event (run_cell c).
Proof.
  destruct c; unfold run_cell, kernel_cell_0, kernel_cell_1, kernel_cell_2,
    kernel_cell_3, kernel_cell_4, kernel_cell_5, kernel_cell_6, kernel_cell_7;
    open_cells; repeat kalways_step; simpl; auto.
Qed.

Lemma session_from_events (cells : list cell) (k : Kernel) (w : World) :
  Forall notebook_event (fst (session_from k cells w)).
Proof.
  revert k w. induction cells as [| c rest IH]; intros k w; simpl.
  - constructor.
  - specialize (IH (k_names (run_cell c k w)) (k_world (run_cell c k w))).
    destruct (session_from _ rest _) as [t kw]. simpl in *.
    apply Forall_app. split; [apply run_cell_events | exact IH].
Qed.

Lemma session_events (cells : list cell) (w : World) :
  Forall notebook_event (fst (session cells w)).
Proof.
  unfold session. pose proof (session_from_events cells fresh w) as H.
  destruct (session_from fresh cells w) as [t [k' w']]. exact H.
Qed.

Lemma notebook_event_no_order (ev : event) :
  notebook_event ev -> is_order_event ev = false.
Proof.
  destruct ev as [| | | [] | | | | | | | | | |]; simpl; intros H;
    try reflexivity; contradiction.
Qed.

Lemma notebook_event_ceiling (ev : event) (c : AccountConfigurations) :
  notebook_event ev ->
  ev = SetAccountConfigurations c -> max_options_trading_level c = Some 1.
Proof. intros H ->. exact H. Qed.

(** ** The strike threshold *)

Lemma min_strike_value_sign (s : bool) (p : float) :
  sign_is s p -> sign_is s (min_strike_value p).
Proof.
  intros H. unfold min_strike_value.
  apply double_round_sign, fmul_c_1_02_sign, H.
Qed.

Lemma min_strike_value_nonpos (p : float) :
  fle p fzero = true -> fle (min_strike_value p) fzero = true.
Proof.
  destruct p as [s | [] | | [] m e]; try discriminate; intros _.
  - destruct s; reflexivity.
  - reflexivity.
  - apply sign_nonpos, min_strike_value_sign. reflexivity.
Qed.

(** A product of at most half a cent is rounded to zero. *)
Lemma double_round_to_zero (s : bool) (m : positive) (e : Z) :
  2 * fst (scaled_ratio 2 m e) <= snd (scaled_ratio 2 m e) ->
  double_round (S754_finite s m e) 2 = S754_zero s.
Proof.
  intros H. unfold double_round.
  pose proof (scaled_ratio_pos 2 m e) as [Hn Hd].
  destruct (scaled_ratio 2 m e) as [num den]. cbn [fst snd] in *.
  assert (Hq : num / den = 0) by (apply Z.div_small; lia).
  assert (Hr : num mod den = num) by (apply Z.mod_small; lia).
  unfold round_half_even. rewrite Hq, Hr.
  destruct (2 * num ?= den) eqn:C; try reflexivity.
  apply Z.compare_gt_iff in C. lia.
Qed.

(** The threshold of a price above zero is zero or above zero according
    to whether the product is above half a cent. *)
Lemma min_strike_value_cases (p : float) :
  flt fzero p = true ->
  (above_half_cent (fmul p c_1_02)
   /\ flt fzero (min_strike_value p) = true)
  \/ (~ above_half_cent (fmul p c_1_02)
      /\ min_strike_value p = S754_zero false).
Proof.
  intros Hp. pose proof (fmul_c_1_02_sign false p (positive_sign p Hp)) as Hs.
  unfold min_strike_value.
  destruct (fmul p c_1_02) as [s | s | | s m e]; cbn [sign_is] in Hs;
    try contradiction; subst s.
  - right. split; [intros [] | reflexivity].
  - left. split; [exact Logic.I | reflexivity].
  - cbn [above_half_cent].
    pose proof (scaled_ratio_pos 2 m e) as [Hn Hd].
    destruct (Z_lt_le_dec (snd (scaled_ratio 2 m e))
                          (2 * fst (scaled_ratio 2 m e))) as [Habove | Hlow].
    + left. split; [exact Habove |].
      pose proof (round_half_even_positive _ _ Hn Hd Habove) as HN.
      unfold double_round.
      destruct (scaled_ratio 2 m e) as [num den]. cbn [fst snd] in *.
      destruct (round_half_even num den) as [| k | k]; try lia.
      change (Z.to_pos (10 ^ 2)) with 100%positive.
      pose proof (float_of_hundredths_positive false k) as Hk.
      destruct (float_of_ratio false k 100) as [s | s | | s m' e'];
        try contradiction; subst s; reflexivity.
    + right. split; [lia | apply double_round_to_zero; exact Hlow].
Qed.

End NotebookFacts.

(** * Facts about the eligibility filter *)

Module SpecFacts.
Import PyDate Spec.

Lemma ContractType_eqb_eq (a b : ContractType) :
  ContractType_eqb a b = true <-> a = b.
Proof. destruct a, b; simpl; split; congruence. Qed.

Lemma eligibleb_spec (window : ExpirationWindow) (min_strike : Q)
    (type : ContractType) (contract : OptionContract) :
  eligibleb window min_strike type contract = true
  <-> eligible window min_strike type contract.
Proof.
  unfold eligibleb, eligible, date_leb, date_le.
  rewrite !andb_true_iff, ContractType_eqb_eq, !Z.leb_le, Qle_bool_iff.
  tauto.
Qed.

Lemma eligibleb_false (window : ExpirationWindow) (min_strike : Q)
    (type : ContractType) (contract : OptionContract) :
  eligibleb window min_strike type contract = false
  <-> ~ eligible window min_strike type contract.
Proof.
  rewrite <- eligibleb_spec.
  destruct (eligibleb window min_strike type contract); split;
    congruence.
Qed.

Section Select.
Variable window : ExpirationWindow.
Variable min_strike : Q.
Variable type : ContractType.

Lemma select_In (contracts : list OptionContract) (c : OptionContract) :
  In c (select contracts window min_strike type)
  <-> In c contracts /\ eligible window min_strike type c.
Proof.
  induction contracts as [| x rest IH]; simpl.
  - tauto.
  - destruct (eligibleb window min_strike type x) eqn:E; simpl; rewrite IH.
    + apply eligibleb_spec in E. intuition (subst; auto).
    + apply eligibleb_false in E. intuition (subst; tauto).
Qed.

Lemma select_app (before after : list OptionContract) :
  select (before ++ after) window min_strike type
  = select before window min_strike type
    ++ select after window min_strike type.
Proof.
  induction before as [| x rest IH]; simpl; [reflexivity |].
  destruct (eligibleb window min_strike type x); simpl; rewrite IH;
    reflexivity.
Qed.

Lemma select_keeps (contracts : list OptionContract) :
  Forall (eligible window min_strike type) contracts ->
  select contracts window min_strike type = contracts.
Proof.
  induction 1 as [| x rest Hx _ IH]; simpl; [reflexivity |].
  apply eligibleb_spec in Hx. rewrite Hx, IH. reflexivity.
Qed.

Lemma select_drops (contracts : list OptionContract) :
  Forall (fun c => ~ eligible window min_strike type c) contracts ->
  select contracts window min_strike type = [].
Proof.
  induction 1 as [| x rest Hx _ IH]; simpl; [reflexivity |].
  apply eligibleb_false in Hx. rewrite Hx, IH. reflexivity.
Qed.

Lemma select_all_eligible (contracts : list OptionContract) :
  Forall (eligible window min_strike type)
         (select contracts window min_strike type).
Proof.
  apply Forall_forall. intros c H. apply select_In in H. tauto.
Qed.

End Select.

End SpecFacts.

(** * The notebook's stored outputs and the spec's scenario, replayed *)

Module Replay.
Import PyFloat PyDate Broker Notebook Spec Samples.

Example cell_3_output :
  printed (trace (cell_3 (world None new_year_2024 f_250)))
  = [[Text "Options Approved Level: 2"];
     [Text "Options Trading Level: 2"];
     [Text "Options Buying Power: 100000"]].
Proof. reflexivity. Qed.

Example cell_4_output :
  printed (trace (cell_4 (world None new_year_2024 f_250)))
  = [[Text "Max Options Trading Level: None"];
     [Text "Max Options Trading Level: 1"]].
Proof. reflexivity. Qed.

Example cell_5_output :
  printed (trace (cell_5 (world None new_year_2024 f_250)))
  = [[Text "Number of Underlyings with Options: 5773"];
     [Text "TSLA has options? False"]].
Proof. vm_compute. reflexivity. Qed.

Example cell_6_output :
  printed (trace (cell_6 (world None new_year_2024 f_250))) = [].
Proof. reflexivity. Qed.

(** 2024 is a leap year: ninety days after 2024-01-01 is 2024-03-31. *)
Example cell_7_scenario :
  result (cell_7 "TSLA" tsla (world None new_year_2024 f_250))
  = Done {| today := date_of 2024 1 1;
            min_expiration := date_of 2024 1 15;
            max_expiration := date_of 2024 3 31;
            underlying_last_price := f_250;
            min_strike := "255.0" |}.
Proof. vm_compute. reflexivity. Qed.

Example date_of_2024_01_01 : toordinal (date_of 2024 1 1) = 738886.
Proof. reflexivity. Qed.

Example date_max : toordinal (date_of 9999 12 31) = MAXORDINAL.
Proof. reflexivity. Qed.

(** The last day on which the window fits is 9999-10-02. *)
Example last_day_that_fits :
  window_fits (date_of 9999 10 2) /\ ~ window_fits (date_of 9999 10 3).
Proof.
  unfold window_fits. vm_compute. repeat split; try discriminate.
  intros [_ H]. apply H. reflexivity.
Qed.

Example repr_samples :
  map float_repr
      [f_250; f_1_25; f_0_001; f_minus_5; c_1_02;
       float_of_ratio false 1 10;
       S754_finite false 4503599627370496 971;
       S754_finite false 1 (-1074);
       float_of_ratio false 10000000000000000 1;
       float_of_ratio false 1 100000]
  = ["250.0"; "1.25"; "0.001"; "-5.0"; "1.02"; "0.1";
     "8.98846567431158e+307"; "5e-324"; "1e+16"; "1e-05"]%string.
Proof. vm_compute. reflexivity. Qed.

Example round_samples :
  map min_strike_of
      [f_250; f_1_25; f_0_001; f_minus_5; f_tie;
       S754_zero true; S754_infinity false; S754_nan;
       float_of_ratio false 18263 100;
       float_of_ratio false 10000000000000000 1]
  = ["255.0"; "1.27"; "0.0"; "-5.1"; "0.62"; "-0.0"; "inf"; "nan";
     "186.28"; "1.02e+16"]%string.
Proof. vm_compute. reflexivity. Qed.

Example select_scenario :
  select scenario_contracts scenario_window (inject_Z 255) CALL
  = [contract CALL 256 (date_of 2024 2 1)].
Proof. vm_compute. reflexivity. Qed.

Example select_boundaries :
  select [contract CALL 255 (date_of 2024 1 14);
          contract CALL 255 (date_of 2024 1 15);
          contract CALL 255 (date_of 2024 4 1);
          contract CALL 255 (date_of 2024 4 2)]
         scenario_window (inject_Z 255) CALL
  = [contract CALL 255 (date_of 2024 1 15);
     contract CALL 255 (date_of 2024 4 1)].
Proof. vm_compute. reflexivity. Qed.

End Replay.

(** * The claims *)

Import PyFloat PyDate Broker Notebook Spec.
Import PyFloatFacts NotebookFacts SpecFacts.

(** C1: [select] returns exactly the contracts whose type matches, whose
    expiration lies in the window with both ends included and whose strike
    is at least [min_strike], that bound included too; it keeps them in the
    order of the input (it distributes over concatenation and keeps or
    drops a single contract according to the predicate alone), and gives
    the empty list, never an error, on empty input or when nothing
    matches. *)
Theorem select_exactly_the_eligible (contracts : list OptionContract)
    (window : ExpirationWindow) (min_strike : Q) (type : ContractType) :
  (forall c,
      In c (select contracts window min_strike type)
      <-> In c contracts
          /\ contract_type c = type
          /\ toordinal (min_date window) <= toordinal (expiration_date c)
             <= toordinal (max_date window)
          /\ (min_strike <= strike_price c)%Q)
  /\ (forall before after,
         contracts = before ++ after ->
         select contracts window min_strike type
         = select before window min_strike type
           ++ select after window min_strike type)
  /\ (forall c,
         select [c] window min_strike type
         = if eligibleb window min_strike type c then [c] else [])
  /\ select [] window min_strike type = []
  /\ ((forall c, In c contracts -> ~ eligible window min_strike type c) ->
      select contracts window min_strike type = []).
Proof.
  split; [| split; [| split; [| split]]].
  - intros c. rewrite select_In. unfold eligible, date_le. tauto.
  - intros before after ->. apply select_app.
  - intros c. simpl. destruct (eligibleb window min_strike type c); reflexivity.
  - reflexivity.
  - intros H. apply select_drops. apply Forall_forall. exact H.
Qed.

Lemma select_exactly_the_eligible_witness :
  In (Samples.contract CALL 256 (date_of 2024 2 1))
     (select Samples.scenario_contracts Samples.scenario_window
             (inject_Z 255) CALL)
  /\ select [Samples.contract PUT 260 (date_of 2024 2 1)]
            Samples.scenario_window (inject_Z 255) CALL = [].
Proof.
  split.
  - apply (proj1 (select_exactly_the_eligible Samples.scenario_contracts
                    Samples.scenario_window (inject_Z 255) CALL)).
    split; [left; reflexivity |].
    split; [reflexivity |].
    split; [vm_compute; split; discriminate | vm_compute; discriminate].
  - apply (proj2 (proj2 (proj2 (proj2
             (select_exactly_the_eligible
                [Samples.contract PUT 260 (date_of 2024 2 1)]
                Samples.scenario_window (inject_Z 255) CALL))))).
    intros c [<- | []] [H _]. discriminate H.
Defined.

(** C9: selecting twice with the same window and threshold gives what
    selecting once gives. *)
Theorem select_idempotent (contracts : list OptionContract)
    (window : ExpirationWindow) (min_strike : Q) (type : ContractType) :
  select (select contracts window min_strike type) window min_strike type
  = select contracts window min_strike type.
Proof. apply select_keeps, select_all_eligible. Qed.

(** C2, as the notebook has it: the overwrite cell reads the clock once.
    On a day whose ninetieth day after is still a date, it binds
    [min_expiration] to that day plus 14 days and [max_expiration] to that
    day plus 90 days, both from the one value read; on a later day
    [date.__add__] raises [OverflowError] and no window is bound. *)
Theorem expiration_window_from_today (underlying_symbol : string)
    (underlying : Asset) (w : World) :
  clock_reads (trace (cell_7 underlying_symbol underlying w)) = 1%nat
  /\ (window_fits (clock w) ->
      exists b,
        result (cell_7 underlying_symbol underlying w) = Done b
        /\ today b = clock w
        /\ toordinal (min_expiration b) = toordinal (today b) + 14
        /\ toordinal (max_expiration b) = toordinal (today b) + 90)
  /\ (~ window_fits (clock w) ->
      result (cell_7 underlying_symbol underlying w) = Raised OverflowError).
Proof.
  destruct (cell_7_outcome underlying_symbol underlying w)
    as [(Hfit & Hreads & Hres) | (Hfit & Hreads & Hres)];
    (split; [exact Hreads |]); split; intros H; try contradiction.
  - eexists. split; [exact Hres |]. repeat split.
  - exact Hres.
Qed.

Lemma expiration_window_from_today_witness :
  exists b,
    result (cell_7 "TSLA" Samples.tsla
              (Samples.world None Samples.new_year_2024 Samples.f_250))
    = Done b
    /\ today b = Samples.new_year_2024
    /\ toordinal (min_expiration b) = toordinal (today b) + 14
    /\ toordinal (max_expiration b) = toordinal (today b) + 90.
Proof.
  apply (proj1 (proj2 (expiration_window_from_today "TSLA" Samples.tsla
                  (Samples.world None Samples.new_year_2024 Samples.f_250)))).
  unfold window_fits. vm_compute. split; [reflexivity | discriminate].
Defined.

(** C2 fails on the notebook: on 9999-12-31, the last date there is, the
    cell raises [OverflowError] instead of binding a window. *)
Lemma expiration_window_overflows :
  let w := Samples.world None (date_of 9999 12 31) Samples.f_250 in
  toordinal (clock w) = MAXORDINAL
  /\ date_add (clock w) {| days := 14 |} = Raised OverflowError
  /\ result (cell_7 "TSLA" Samples.tsla w) = Raised OverflowError
  /\ ~ exists b, result (cell_7 "TSLA" Samples.tsla w) = Done b.
Proof.
  vm_compute. repeat split. intros [b H]. discriminate H.
Qed.

(** C10: whatever the last price, every run of the overwrite cell that
    gets past the expiration dates binds [min_strike] to the text
    [str(round(underlying_last_price * 1.02, 2))], not to a number, and
    comparing any float strike price against it with [>=] is a comparison
    of a number with a string, a [TypeError]. *)
Theorem min_strike_is_text (underlying_symbol : string) (underlying : Asset)
    (w : World) :
  window_fits (clock w) ->
  exists b,
    result (cell_7 underlying_symbol underlying w) = Done b
    /\ underlying_last_price b = latest_trade_price w underlying_symbol
    /\ min_strike b
       = float_repr (double_round (fmul (underlying_last_price b) c_1_02) 2)
    /\ forall strike_price : float,
         py_ge (VFloat strike_price) (VStr (min_strike b)) = Raised TypeError.
Proof.
  intros Hfit.
  destruct (cell_7_outcome underlying_symbol underlying w)
    as [(_ & _ & Hres) | (Hnot & _)]; [| contradiction].
  eexists. split; [exact Hres |]. repeat split.
Qed.

Lemma min_strike_is_text_witness :
  exists b,
    result (cell_7 "TSLA" Samples.tsla
              (Samples.world None Samples.new_year_2024 Samples.f_250))
    = Done b
    /\ underlying_last_price b = Samples.f_250
    /\ min_strike b
       = float_repr (double_round (fmul (underlying_last_price b) c_1_02) 2)
    /\ forall strike_price : float,
         py_ge (VFloat strike_price) (VStr (min_strike b)) = Raised TypeError.
Proof.
  apply (min_strike_is_text "TSLA" Samples.tsla
           (Samples.world None Samples.new_year_2024 Samples.f_250)).
  unfold window_fits. vm_compute. split; [reflexivity | discriminate].
Defined.

(** C8: no run of the notebook, top to bottom or cell by cell in any
    order, finished or stopped by an exception, ever builds an order
    request or submits an order; in particular none exists before the
    strike threshold and the risk ceiling have been dealt with. *)
Theorem no_order_in_any_run (w : World) :
  Forall (fun ev => is_order_event ev = false) (trace (notebook w))
  /\ forall cells,
       Forall (fun ev => is_order_event ev = false) (fst (session cells w)).
Proof.
  split; [| intros cells];
    eapply Forall_impl;
    try apply notebook_event_no_order;
    [apply notebook_events | apply session_events].
Qed.

(** C4, as the notebook has it: the risk management cell asks no question
    of the ceiling it reads.  On every account, the ceiling unset or set to
    any integer, it finishes without an exception, having written the
    ceiling 1 and left the other settings alone. *)
Theorem risk_step_never_rejects (w : World) :
  result (cell_4 w)
  = Done (set_max_options_trading_level (configurations w) (Some 1))
  /\ max_options_trading_level (configurations (final (cell_4 w))) = Some 1
  /\ other_settings (configurations (final (cell_4 w)))
     = other_settings (configurations w)
  /\ forall e, result (cell_4 w) <> Raised e.
Proof.
  rewrite cell_4_run. simpl. repeat split; discriminate.
Qed.

(** C4 fails on the notebook: with the ceiling unset, as it was when the
    stored output was produced, the cell raises nothing and goes on to
    write the ceiling 1. *)
Lemma risk_step_accepts_unset_ceiling :
  let w := Samples.world None Samples.new_year_2024 Samples.f_250 in
  max_options_trading_level (configurations w) = None
  /\ result (cell_4 w)
     = Done {| max_options_trading_level := Some 1; other_settings := [] |}
  /\ printed (trace (cell_4 w))
     = [[Text "Max Options Trading Level: None"];
        [Text "Max Options Trading Level: 1"]]
  /\ ~ exists e, result (cell_4 w) = Raised e.
Proof.
  repeat split. intros [e H]. discriminate H.
Qed.

(** C5, as the notebook has it: every ceiling that a run of the notebook,
    top to bottom or cell by cell, writes to the account is 1, whatever
    was read; the risk management cell writes it exactly once.  So the
    ceiling written is not greater than an integer ceiling read exactly
    when the one read is at least 1. *)
Theorem ceiling_written_is_one (w : World) :
  Forall (fun ev =>
            forall c, ev = SetAccountConfigurations c ->
                      max_options_trading_level c = Some 1)
         (trace (notebook w))
  /\ (forall cells,
        Forall (fun ev =>
                  forall c, ev = SetAccountConfigurations c ->
                            max_options_trading_level c = Some 1)
               (fst (session cells w)))
  /\ written_levels (trace (cell_4 w)) = [Some 1]
  /\ forall r v,
       max_options_trading_level (configurations w) = Some r ->
       In (Some v) (written_levels (trace (cell_4 w))) ->
       (v <= r <-> 1 <= r).
Proof.
  split; [| split; [| split]].
  - eapply Forall_impl; [| apply notebook_events].
    intros ev H c. apply notebook_event_ceiling, H.
  - intros cells. eapply Forall_impl; [| apply session_events].
    intros ev H c. apply notebook_event_ceiling, H.
  - rewrite cell_4_run. reflexivity.
  - intros r v _ H. rewrite cell_4_run in H. simpl in H.
    destruct H as [H | []]. injection H as <-. tauto.
Qed.

Lemma ceiling_written_is_one_witness :
  let w := Samples.world (Some 2) Samples.new_year_2024 Samples.f_250 in
  written_levels (trace (cell_4 w)) = [Some 1] /\ (1 <= 2 <-> 1 <= 2).
Proof.
  intros w. destruct (ceiling_written_is_one w) as (_ & _ & Hwritten & Hle).
  split; [exact Hwritten |].
  apply (Hle 2 1); [reflexivity | left; reflexivity].
Defined.

(** C5 fails on the notebook: a ceiling of 0 read from the account is
    written back as 1. *)
Lemma risk_step_raises_zero_ceiling :
  let w := Samples.world (Some 0) Samples.new_year_2024 Samples.f_250 in
  max_options_trading_level (configurations w) = Some 0
  /\ written_levels (trace (notebook w)) = [Some 1]
  /\ max_options_trading_level (configurations (final (notebook w))) = Some 1
  /\ ~ 1 <= 0.
Proof.
  vm_compute. repeat split. intros H. apply H. reflexivity.
Qed.

(** C7, as the notebook has it: for every last price above zero the number
    that [min_strike] renders is not negative.  It is above zero exactly
    when the float product of the price and 1.02 is above half a cent, and
    otherwise it is zero and [min_strike] is the text "0.0". *)
Theorem min_strike_positive_iff (p : float) :
  flt fzero p = true ->
  fle fzero (min_strike_value p) = true
  /\ min_strike_of p = float_repr (min_strike_value p)
  /\ (flt fzero (min_strike_value p) = true
      <-> above_half_cent (fmul p c_1_02))
  /\ (~ above_half_cent (fmul p c_1_02) ->
      min_strike_value p = S754_zero false
      /\ min_strike_of p = "0.0"%string).
Proof.
  intros Hp. split; [| split; [| split]].
  - apply sign_nonneg, min_strike_value_sign, positive_sign, Hp.
  - reflexivity.
  - destruct (min_strike_value_cases p Hp) as [[Ha Hv] | [Ha Hv]].
    + split; intros _; assumption.
    + rewrite Hv. split; [discriminate | intros H; contradiction].
  - intros Hlow.
    destruct (min_strike_value_cases p Hp) as [[Ha _] | [_ Hv]];
      [contradiction |].
    split; [exact Hv |]. unfold min_strike_of. rewrite Hv. reflexivity.
Qed.

Lemma min_strike_positive_iff_witness :
  flt fzero (min_strike_value Samples.f_250) = true
  /\ min_strike_of Samples.f_0_001 = "0.0"%string.
Proof.
  split.
  - apply (proj1 (proj2 (proj2 (min_strike_positive_iff Samples.f_250
                                  eq_refl)))).
    vm_compute. reflexivity.
  - apply (proj2 (proj2 (proj2 (min_strike_positive_iff Samples.f_0_001
                                  eq_refl)))).
    vm_compute. intros H. discriminate H.
Defined.

(** C7 fails on the notebook: a last price of 0.001 is above zero, and the
    threshold computed from it is 0.0, which is not. *)
Lemma min_strike_zero_for_small_price :
  flt fzero Samples.f_0_001 = true
  /\ min_strike_value Samples.f_0_001 = S754_zero false
  /\ min_strike_of Samples.f_0_001 = "0.0"%string
  /\ flt fzero (min_strike_value Samples.f_0_001) = false.
Proof. vm_compute. repeat split. Qed.

(** C6, as the notebook has it: the minimum strike is computed without any
    check of the price.  For every last price at or below zero, the
    overwrite cell raises nothing on a day whose window fits among the
    dates, and binds [min_strike] to the rendering of
    [round(underlying_last_price * 1.02, 2)], a number at or below
    zero. *)
Theorem min_strike_no_price_check (underlying_symbol : string)
    (underlying : Asset) (w : World) :
  fle (latest_trade_price w underlying_symbol) fzero = true ->
  window_fits (clock w) ->
  exists b,
    result (cell_7 underlying_symbol underlying w) = Done b
    /\ min_strike b
       = float_repr (min_strike_value (latest_trade_price w underlying_symbol))
    /\ fle (min_strike_value (latest_trade_price w underlying_symbol)) fzero
       = true.
Proof.
  intros Hp Hfit.
  destruct (cell_7_outcome underlying_symbol underlying w)
    as [(_ & _ & Hres) | (Hnot & _)]; [| contradiction].
  eexists. split; [exact Hres |]. split; [reflexivity |].
  apply min_strike_value_nonpos, Hp.
Qed.

Lemma min_strike_no_price_check_witness :
  exists b,
    result (cell_7 "TSLA" Samples.tsla
              (Samples.world None Samples.new_year_2024 Samples.f_minus_5))
    = Done b
    /\ min_strike b = float_repr (min_strike_value Samples.f_minus_5)
    /\ fle (min_strike_value Samples.f_minus_5) fzero = true.
Proof.
  apply (min_strike_no_price_check "TSLA" Samples.tsla
           (Samples.world None Samples.new_year_2024 Samples.f_minus_5)).
  - reflexivity.
  - unfold window_fits. vm_compute. split; [reflexivity | discriminate].
Defined.

(** C6 fails on the notebook: at a last price of -5.0 the cell raises
    nothing and binds [min_strike] to the text "-5.1". *)
Lemma negative_price_not_rejected :
  let w := Samples.world None Samples.new_year_2024 Samples.f_minus_5 in
  fle (latest_trade_price w "TSLA") fzero = true
  /\ result (cell_7 "TSLA" Samples.tsla w)
     = Done {| today := date_of 2024 1 1;
               min_expiration := date_of 2024 1 15;
               max_expiration := date_of 2024 3 31;
               underlying_last_price := Samples.f_minus_5;
               min_strike := "-5.1" |}
  /\ ~ exists e, result (cell_7 "TSLA" Samples.tsla w) = Raised e.
Proof.
  vm_compute. repeat split. intros [e H]. discriminate H.
Qed.

(** C3, as the notebook has it: the minimum strike is the float product of
    the last price and 1.02 rounded to two decimal places to the nearest
    hundredth, ties going to the even hundredth.  For a finite product
    [m * 2 ^ e] the hundredths kept are the integer [n] nearest to
    [100 * m * 2 ^ e], even when two are equally near; that is the half-up
    choice except at an exact tie.  A product that is a zero, an infinity
    or NaN is left as it is. *)
Theorem min_strike_rounds_half_even (p : float) :
  min_strike_of p = float_repr (min_strike_value p)
  /\ match fmul p c_1_02 with
     | S754_finite s m e =>
         let num := fst (scaled_ratio 2 m e) in
         let den := snd (scaled_ratio 2 m e) in
         let n := round_half_even num den in
         min_strike_value p
         = match n with
           | Zpos k => float_of_ratio s k 100
           | _ => S754_zero s
           end
         /\ 0 <= n
         /\ 2 * Z.abs (num - n * den) <= den
         /\ (2 * Z.abs (num - n * den) = den -> Z.even n = true)
         /\ (2 * (num mod den) <> den -> n = round_half_up num den)
     | x => min_strike_value p = x
     end.
Proof.
  split; [reflexivity |]. unfold min_strike_value.
  destruct (fmul p c_1_02) as [s | s | | s m e]; try reflexivity.
  pose proof (scaled_ratio_pos 2 m e) as [Hn Hd].
  cbv zeta. unfold double_round.
  destruct (scaled_ratio 2 m e) as [num den]. cbn [fst snd] in *.
  split; [reflexivity |].
  split; [apply round_half_even_nonneg; assumption |].
  split; [apply round_half_even_nearest; assumption |].
  split; [apply round_half_even_nearest; assumption |].
  apply round_half_even_half_up; assumption.
Qed.

Lemma min_strike_rounds_half_even_witness :
  min_strike_value Samples.f_tie = float_of_ratio false 62 100
  /\ Z.even 62 = true.
Proof.
  pose proof (proj2 (min_strike_rounds_half_even Samples.f_tie)) as H.
  change (fmul Samples.f_tie c_1_02)
    with (S754_finite false 5629499534213120 (-53)) in H.
  cbv zeta in H. destruct H as (Hvalue & _ & _ & Heven & _).
  split.
  - rewrite Hvalue. vm_compute. reflexivity.
  - vm_compute in Heven. apply Heven. reflexivity.
Defined.

(** C3 fails on the notebook: 1.25 is a float, 1.25 * 1.02 = 1.275 rounds
    half-up to 1.28, and the notebook computes the text "1.27". *)
Lemma min_strike_not_half_up :
  Samples.f_1_25 = S754_finite false 5629499534213120 (-52)
  /\ 5629499534213120 * 100 = 125 * 2 ^ 52
  /\ flt fzero Samples.f_1_25 = true
  /\ round_half_up (125 * 102) 100 = 128
  /\ float_repr (half_up_min_strike Samples.f_1_25) = "1.28"%string
  /\ min_strike_of Samples.f_1_25 = "1.27"%string
  /\ min_strike_value Samples.f_1_25 <> half_up_min_strike Samples.f_1_25.
Proof.
  vm_compute. repeat split. discriminate.
Qed.

(** The same at an exact tie of the float product: the last price
    0.6127450980392157 times 1.02 is the float 0.625, which half-up takes
    to 0.63 and the notebook to "0.62". *)
Lemma min_strike_tie_to_even :
  fmul Samples.f_tie c_1_02 = S754_finite false 5629499534213120 (-53)
  /\ 5629499534213120 * 8 = 5 * 2 ^ 53
  /\ float_repr (half_up_of_product Samples.f_tie) = "0.63"%string
  /\ float_repr (half_up_min_strike Samples.f_tie) = "0.63"%string
  /\ min_strike_of Samples.f_tie = "0.62"%string.
Proof. vm_compute. repeat split. Qed.

(** * The cells one by one, and how they compose *)

Module CellFacts.
Import PyFloat PyDate Broker Notebook NotebookFacts.

(** ** What each cell does, on any world *)

Lemma cell_0_run (w : World) :
  cell_0 w =
  {| trace := [LoadDotenv; Getenv "ALPACA_API_KEY"; Getenv "ALPACA_SECRET_KEY"];
     final := w;
     result := Done (environ w "ALPACA_API_KEY"%string,
                     environ w "ALPACA_SECRET_KEY"%string, true) |}.
Proof. reflexivity. Qed.

Lemma cell_2_run (api_key secret_key : option string) (paper : bool)
    (w : World) :
  cell_2 api_key secret_key paper w =
  {| trace := [NewClient TradingClient api_key secret_key (Some paper);
               NewClient StockHistoricalDataClient api_key secret_key None;
               NewClient OptionHistoricalDataClient api_key secret_key None];
     final := w;
     result := Done tt |}.
Proof. reflexivity. Qed.

Lemma cell_3_run (w : World) :
  cell_3 w =
  {| trace :=
       [GetAccount;
        Print [Text ("Options Approved Level: "
                     ++ str_optional str_int
                          (options_approved_level (account w)))];
        Print [Text ("Options Trading Level: "
                     ++ str_optional str_int
                          (options_trading_level (account w)))];
        Print [Text ("Options Buying Power: "
                     ++ str_optional (fun s => s)
                          (options_buying_power (account w)))]];
     final := w;
     result := Done (account w) |}.
Proof. reflexivity. Qed.

Lemma cell_5_run (w : World) :
  cell_5 w =
  match attributes (asset_of w "TSLA") with
  | None =>
      {| trace := cell_5_head w; final := w; result := Raised TypeError |}
  | Some l =>
      {| trace :=
           cell_5_head w
           ++ [Print [Text ("TSLA has options? "
                            ++ str_bool
                                 (existsb (String.eqb "options_enabled") l))]];
         final := w;
         result := Done ("TSLA"%string, asset_of w "TSLA") |}
  end.
Proof.
  cbv beta iota zeta
      delta [cell_5 bind new_request get_all_assets get_asset print emit ask
             ret lift result trace final py_in cell_5_head].
  destruct (attributes (asset_of w "TSLA")); reflexivity.
Qed.

Lemma print_each_run (positions : list Position) (w : World) :
  print_each positions w =
  {| trace := map (fun p => Print [PositionText p]) positions;
     final := w;
     result := Done tt |}.
Proof.
  induction positions as [| p rest IH]; [reflexivity |].
  cbn [print_each]. unfold bind, print, emit. cbn [result final trace].
  rewrite IH. reflexivity.
Qed.

Lemma cell_6_run (w : World) :
  cell_6 w =
  {| trace :=
       GetAllPositions
       :: map (fun p => Print [PositionText p]) (open_positions w);
     final := w;
     result := Done (open_positions w) |}.
Proof.
  unfold cell_6, bind, get_all_positions, ask. cbn [result final trace].
  rewrite print_each_run. cbn [result final trace ret].
  rewrite app_nil_r. reflexivity.
Qed.

Lemma cell_7_final (underlying_symbol : string) (underlying : Asset)
    (w : World) :
  final (cell_7 underlying_symbol underlying w) = w.
Proof.
  rewrite cell_7_run.
  destruct (date_add (clock w) {| days := 14 |});
    [destruct (date_add (clock w) {| days := 90 |}) |]; reflexivity.
Qed.

Lemma cell_5_final (w : World) : final (cell_5 w) = w.
Proof.
  rewrite cell_5_run. destruct (attributes (asset_of w "TSLA")); reflexivity.
Qed.

Lemma printed_positions (positions : list Position) :
  printed (map (fun p => Print [PositionText p]) positions)
  = map (fun p => [PositionText p]) positions.
Proof.
  induction positions as [| p rest IH]; [reflexivity |].
  cbn [map]. unfold printed in *. cbn [flat_map app]. rewrite IH. reflexivity.
Qed.

Lemma no_keys_in_positions (positions : list Position) :
  filter carries_keys (map (fun p => Print [PositionText p]) positions) = [].
Proof.
  induction positions as [| p rest IH]; [reflexivity | exact IH].
Qed.

(** ** The account after a cell *)

Ltac open_kernel :=
  cbv beta iota zeta
      delta [kbind bound name in_world assign kret check_keys
             k_result k_trace k_world k_names];
  cbn [k_imports k_keys k_trade_client k_stock_data_client
       k_option_data_client k_underlying_symbol k_underlying
       bind_imports bind_keys bind_clients bind_underlying_symbol
       bind_underlying].

Lemma after_nil {A : Type} (r : krun A) : after [] r = r.
Proof. destruct r. reflexivity. Qed.

Lemma kbind_bound {B : Type} (read : Kernel -> bool) (f : unit -> K B)
    (k : Kernel) (w : World) :
  kbind (bound read) f k w =
  if read k then f tt k w
  else {| k_trace := []; k_world := w; k_names := k;
          k_result := Raised NameError |}.
Proof.
  unfold kbind, bound, name. cbn [k_result k_trace k_world k_names].
  destruct (read k); [apply after_nil | reflexivity].
Qed.

Lemma kbind_name {A B : Type} (read : Kernel -> option A) (f : A -> K B)
    (k : Kernel) (w : World) :
  kbind (name read) f k w =
  match read k with
  | Some a => f a k w
  | None => {| k_trace := []; k_world := w; k_names := k;
               k_result := Raised NameError |}
  end.
Proof.
  unfold kbind, name. cbn [k_result k_trace k_world k_names].
  destruct (read k); [apply after_nil | reflexivity].
Qed.

Lemma kbind_assign {B : Type} (write : Kernel -> Kernel) (f : unit -> K B)
    (k : Kernel) (w : World) :
  kbind (assign write) f k w = f tt (write k) w.
Proof. unfold kbind, assign. cbn [k_result]. apply after_nil. Qed.

Lemma kbind_in_world {A B : Type} (m : M A) (f : A -> K B)
    (k : Kernel) (w : World) :
  kbind (in_world m) f k w =
  match result (m w) with
  | Done a => after (trace (m w)) (f a k (final (m w)))
  | Raised e => {| k_trace := trace (m w); k_world := final (m w);
                   k_names := k; k_result := Raised e |}
  end.
Proof.
  unfold kbind, in_world. cbn [k_result k_trace k_world k_names].
  destruct (result (m w)); reflexivity.
Qed.

Lemma kernel_cell_0_run (k : Kernel) (w : World) :
  kernel_cell_0 k w =
  {| k_trace := trace (cell_0 w);
     k_world := w;
     k_names := bind_keys (environ w "ALPACA_API_KEY"%string,
                           environ w "ALPACA_SECRET_KEY"%string, true) k;
     k_result := Done tt |}.
Proof. reflexivity. Qed.

Lemma kernel_cell_1_run (k : Kernel) (w : World) :
  kernel_cell_1 k w =
  {| k_trace := []; k_world := w; k_names := bind_imports k;
     k_result := Done tt |}.
Proof. reflexivity. Qed.

Lemma kernel_cell_2_run (k : Kernel) (w : World) :
  kernel_cell_2 k w =
  match k_imports k, k_keys k with
  | true, Some (api_key, secret_key, paper) =>
      if usable api_key && usable secret_key
      then {| k_trace := trace (cell_2 api_key secret_key paper w);
              k_world := w;
              k_names := bind_clients k;
              k_result := Done tt |}
      else {| k_trace := []; k_world := w; k_names := k;
              k_result := Raised ValueError |}
  | _, _ =>
      {| k_trace := []; k_world := w; k_names := k;
         k_result := Raised NameError |}
  end.
Proof.
  unfold kernel_cell_2. open_kernel.
  destruct (k_imports k); [| reflexivity].
  destruct (k_keys k) as [[[api_key secret_key] paper] |]; [| reflexivity].
  cbn [app]. destruct (usable api_key && usable secret_key); reflexivity.
Qed.

Lemma kernel_cell_3_run (k : Kernel) (w : World) :
  kernel_cell_3 k w =
  if k_trade_client k
  then {| k_trace := trace (cell_3 w); k_world := w; k_names := k;
          k_result := Done tt |}
  else {| k_trace := []; k_world := w; k_names := k;
          k_result := Raised NameError |}.
Proof.
  unfold kernel_cell_3. open_kernel.
  destruct (k_trade_client k); [| reflexivity].
  rewrite cell_3_run. cbn [result trace final app]. reflexivity.
Qed.

Lemma kernel_cell_4_run (k : Kernel) (w : World) :
  kernel_cell_4 k w =
  if k_trade_client k
  then {| k_trace := trace (cell_4 w); k_world := capped w; k_names := k;
          k_result := Done tt |}
  else {| k_trace := []; k_world := w; k_names := k;
          k_result := Raised NameError |}.
Proof.
  unfold kernel_cell_4. open_kernel.
  destruct (k_trade_client k); [| reflexivity].
  rewrite cell_4_run. cbn [result trace final app]. reflexivity.
Qed.

Lemma kernel_cell_6_run (k : Kernel) (w : World) :
  kernel_cell_6 k w =
  if k_trade_client k
  then {| k_trace := trace (cell_6 w); k_world := w; k_names := k;
          k_result := Done tt |}
  else {| k_trace := []; k_world := w; k_names := k;
          k_result := Raised NameError |}.
Proof.
  unfold kernel_cell_6. open_kernel.
  destruct (k_trade_client k); [| reflexivity].
  rewrite cell_6_run. cbn [result trace final app].
  rewrite app_nil_r. reflexivity.
Qed.

(** Cell 5 has bound both of its names by the time the membership test can
    raise. *)
Lemma kernel_cell_5_run (k : Kernel) (w : World) :
  kernel_cell_5 k w =
  if k_imports k then
    if k_trade_client k
    then {| k_trace := trace (cell_5 w);
            k_world := w;
            k_names := bind_underlying (asset_of w "TSLA")
                         (bind_underlying_symbol "TSLA" k);
            k_result := match attributes (asset_of w "TSLA") with
                        | None => Raised TypeError
                        | Some _ => Done tt
                        end |}
    else {| k_trace := [NewRequest (GetAssetsRequest "active" "options_enabled")];
            k_world := w; k_names := k; k_result := Raised NameError |}
  else {| k_trace := []; k_world := w; k_names := k;
          k_result := Raised NameError |}.
Proof.
  unfold kernel_cell_5. rewrite cell_5_run. unfold cell_5_head.
  rewrite kbind_bound. destruct (k_imports k); [| reflexivity].
  rewrite kbind_in_world.
  cbv beta iota delta [new_request bind emit ret result trace final].
  cbn [app].
  rewrite kbind_bound. destruct (k_trade_client k); [| reflexivity].
  rewrite kbind_in_world. cbn [get_all_assets ask result trace final].
  rewrite kbind_in_world. cbn [print emit result trace final].
  rewrite kbind_assign, kbind_name.
  cbn [k_underlying_symbol bind_underlying_symbol].
  rewrite kbind_in_world. cbn [get_asset ask result trace final].
  rewrite kbind_assign, kbind_in_world.
  unfold in_world. cbn [lift py_in print emit result trace final].
  destruct (attributes (asset_of w "TSLA")); reflexivity.
Qed.

(** Cell 7 reads the clock and adds the days before it reads
    [underlying_symbol], and asks for the last trade before it reads
    [underlying]. *)
Lemma kernel_cell_7_run (k : Kernel) (w : World) :
  kernel_cell_7 k w =
  let stop t e :=
    {| k_trace := t; k_world := w; k_names := k; k_result := Raised e |} in
  if k_imports k then
    match date_add (clock w) {| days := 14 |},
          date_add (clock w) {| days := 90 |} with
    | Done lo, Done hi =>
        match k_underlying_symbol k with
        | None => stop [Now] NameError
        | Some symbol =>
            if k_stock_data_client k then
              match k_underlying k with
              | None =>
                  stop [Now; NewRequest (StockLatestTradeRequest symbol);
                        GetStockLatestTrade (StockLatestTradeRequest symbol)]
                       NameError
              | Some underlying =>
                  {| k_trace := trace (cell_7 symbol underlying w);
                     k_world := w;
                     k_names := k;
                     k_result := Done tt |}
              end
            else stop [Now; NewRequest (StockLatestTradeRequest symbol)]
                      NameError
        end
    | Done _, Raised e => stop [Now] e
    | Raised e, _ => stop [Now] e
    end
  else stop [] NameError.
Proof.
  unfold kernel_cell_7. cbv zeta.
  rewrite kbind_bound. destruct (k_imports k); [| reflexivity].
  rewrite kbind_in_world. cbn [now_date ask result trace final].
  rewrite kbind_in_world. cbn [lift result trace final].
  destruct (date_add (clock w) {| days := 14 |}) as [lo | e1] eqn:E14;
    [| reflexivity].
  rewrite kbind_in_world. cbn [lift result trace final].
  destruct (date_add (clock w) {| days := 90 |}) as [hi | e2] eqn:E90;
    [| reflexivity].
  rewrite kbind_name.
  destruct (k_underlying_symbol k) as [symbol |]; [| reflexivity].
  rewrite kbind_in_world.
  cbv beta iota delta [new_request bind emit ret result trace final].
  cbn [app].
  rewrite kbind_bound. destruct (k_stock_data_client k); [| reflexivity].
  rewrite kbind_in_world. cbn [get_stock_latest_trade ask result trace final].
  rewrite kbind_name.
  destruct (k_underlying k) as [underlying |]; [| reflexivity].
  rewrite !kbind_in_world. cbn [print emit result trace final].
  rewrite cell_7_run, E14, E90. reflexivity.
Qed.


(** ** One step of a session *)

Lemma no_write_in_positions (positions : list Position) :
  written_levels (map (fun p => Print [PositionText p]) positions) = [].
Proof.
  induction positions as [| p rest IH]; [reflexivity | exact IH].
Qed.

Lemma cell_5_writes (w : World) : written_levels (trace (cell_5 w)) = [].
Proof.
  rewrite cell_5_run. destruct (attributes (asset_of w "TSLA")); reflexivity.
Qed.

Lemma cell_6_writes (w : World) : written_levels (trace (cell_6 w)) = [].
Proof.
  rewrite cell_6_run. cbn [trace]. apply no_write_in_positions.
Qed.

Lemma cell_7_writes (underlying_symbol : string) (underlying : Asset)
    (w : World) :
  written_levels (trace (cell_7 underlying_symbol underlying w)) = [].
Proof.
  rewrite cell_7_run.
  destruct (date_add (clock w) {| days := 14 |});
    [destruct (date_add (clock w) {| days := 90 |}) |]; reflexivity.
Qed.

Lemma run_cell_world (c : cell) (k : Kernel) (w : World) :
  k_world (run_cell c k w)
  = if is_risk_cell c && k_trade_client k then capped w else w.
Proof.
  destruct c; cbn [run_cell is_risk_cell andb].
  - reflexivity.
  - reflexivity.
  - rewrite kernel_cell_2_run.
    destruct (k_imports k), (k_keys k) as [[[a s] p] |]; try reflexivity.
    destruct (usable a && usable s); reflexivity.
  - rewrite kernel_cell_3_run. destruct (k_trade_client k); reflexivity.
  - rewrite kernel_cell_4_run. destruct (k_trade_client k); reflexivity.
  - rewrite kernel_cell_5_run.
    destruct (k_imports k), (k_trade_client k); reflexivity.
  - rewrite kernel_cell_6_run. destruct (k_trade_client k); reflexivity.
  - rewrite kernel_cell_7_run. cbv zeta.
    destruct (k_imports k); [| reflexivity].
    destruct (date_add (clock w) {| days := 14 |});
      [destruct (date_add (clock w) {| days := 90 |}) |]; try reflexivity.
    destruct (k_underlying_symbol k); [| reflexivity].
    destruct (k_stock_data_client k); [| reflexivity].
    destruct (k_underlying k); reflexivity.
Qed.

Lemma run_cell_writes (c : cell) (k : Kernel) (w : World) :
  written_levels (k_trace (run_cell c k w))
  = if is_risk_cell c && k_trade_client k then [Some 1] else [].
Proof.
  destruct c; cbn [run_cell is_risk_cell andb].
  - reflexivity.
  - reflexivity.
  - rewrite kernel_cell_2_run.
    destruct (k_imports k), (k_keys k) as [[[a s] p] |]; try reflexivity.
    destruct (usable a && usable s); reflexivity.
  - rewrite kernel_cell_3_run. destruct (k_trade_client k); reflexivity.
  - rewrite kernel_cell_4_run. destruct (k_trade_client k); reflexivity.
  - rewrite kernel_cell_5_run.
    destruct (k_imports k), (k_trade_client k); try reflexivity.
    apply cell_5_writes.
  - rewrite kernel_cell_6_run. destruct (k_trade_client k);
      [apply cell_6_writes | reflexivity].
  - rewrite kernel_cell_7_run. cbv zeta.
    destruct (k_imports k); [| reflexivity].
    destruct (date_add (clock w) {| days := 14 |}) eqn:E14;
      [destruct (date_add (clock w) {| days := 90 |}) eqn:E90 |];
      try reflexivity.
    destruct (k_underlying_symbol k); [| reflexivity].
    destruct (k_stock_data_client k); [| reflexivity].
    destruct (k_underlying k); [| reflexivity].
    apply cell_7_writes.
Qed.

Lemma run_cell_names (c : cell) (k : Kernel) (w : World) :
  k_names (run_cell c k w)
  = match c with
    | Cell0 =>
        bind_keys (environ w "ALPACA_API_KEY"%string,
                   environ w "ALPACA_SECRET_KEY"%string, true) k
    | Cell1 => bind_imports k
    | Cell2 =>
        match k_imports k, k_keys k with
        | true, Some (api_key, secret_key, _) =>
            if usable api_key && usable secret_key then bind_clients k else k
        | _, _ => k
        end
    | Cell5 =>
        if k_imports k && k_trade_client k
        then bind_underlying (asset_of w "TSLA")
               (bind_underlying_symbol "TSLA" k)
        else k
    | _ => k
    end.
Proof.
  destruct c; cbn [run_cell].
  - reflexivity.
  - reflexivity.
  - rewrite kernel_cell_2_run.
    destruct (k_imports k), (k_keys k) as [[[a s] p] |]; try reflexivity.
    destruct (usable a && usable s); reflexivity.
  - rewrite kernel_cell_3_run. destruct (k_trade_client k); reflexivity.
  - rewrite kernel_cell_4_run. destruct (k_trade_client k); reflexivity.
  - rewrite kernel_cell_5_run.
    destruct (k_imports k), (k_trade_client k); reflexivity.
  - rewrite kernel_cell_6_run. destruct (k_trade_client k); reflexivity.
  - rewrite kernel_cell_7_run. cbv zeta.
    destruct (k_imports k); [| reflexivity].
    destruct (date_add (clock w) {| days := 14 |});
      [destruct (date_add (clock w) {| days := 90 |}) |]; try reflexivity.
    destruct (k_underlying_symbol k); [| reflexivity].
    destruct (k_stock_data_client k); [| reflexivity].
    destruct (k_underlying k); reflexivity.
Qed.

Lemma capped_capped (w : World) : capped (capped w) = capped w.
Proof. reflexivity. Qed.

Lemma usable_credentials (env : string -> option string) :
  usable (env "ALPACA_API_KEY"%string)
  && usable (env "ALPACA_SECRET_KEY"%string) = true
  <-> credentials_set env.
Proof.
  unfold credentials_set. split.
  - intros H. apply andb_true_iff in H. destruct H as [Ha Hs].
    destruct (env "ALPACA_API_KEY"%string) as [[| a0 a] |]; try discriminate.
    destruct (env "ALPACA_SECRET_KEY"%string) as [[| s0 s] |];
      try discriminate.
    exists (String a0 a), (String s0 s). repeat split; discriminate.
  - intros (a & b & -> & -> & Ha & Hb).
    destruct a; [contradiction |]. destruct b; [contradiction |]. reflexivity.
Qed.

(** ** Sessions *)

(** A session whose cells keep an invariant of the kernel under which
    nothing is written leaves the world alone. *)
Lemma session_quiet (I : Kernel -> Prop) (allowed : cell -> Prop) (w : World) :
  (forall c k, allowed c -> I k ->
               I (k_names (run_cell c k w))
               /\ k_world (run_cell c k w) = w
               /\ written_levels (k_trace (run_cell c k w)) = []) ->
  forall cells k,
    Forall allowed cells -> I k ->
    written_levels (fst (session_from k cells w)) = []
    /\ snd (snd (session_from k cells w)) = w.
Proof.
  intros Hstep. induction cells as [| c rest IH]; intros k Hall Hk.
  - split; reflexivity.
  - inversion Hall as [| c' rest' Hc Hrest]; subst.
    destruct (Hstep c k Hc Hk) as (Hk' & Hw & Hwr).
    cbn [session_from]. rewrite Hw.
    specialize (IH (k_names (run_cell c k w)) Hrest Hk').
    destruct (session_from (k_names (run_cell c k w)) rest w) as [t kw].
    cbn [fst snd] in *. destruct IH as [IHt IHw].
    unfold written_levels in *. rewrite flat_map_app, Hwr, IHt.
    split; [reflexivity | exact IHw].
Qed.

(** The world after a session is the one before it or that one capped,
    according to whether anything was written. *)
Lemma session_from_world (cells : list cell) (k : Kernel) (w : World) :
  (written_levels (fst (session_from k cells w)) = []
   /\ snd (snd (session_from k cells w)) = w)
  \/ (written_levels (fst (session_from k cells w)) <> []
      /\ snd (snd (session_from k cells w)) = capped w).
Proof.
  revert k w. induction cells as [| c rest IH]; intros k w.
  - left. split; reflexivity.
  - cbn [session_from].
    pose proof (run_cell_world c k w) as Hw.
    pose proof (run_cell_writes c k w) as Hwr.
    specialize (IH (k_names (run_cell c k w)) (k_world (run_cell c k w))).
    destruct (session_from _ rest _) as [t kw]. cbn [fst snd] in *.
    unfold written_levels in *. rewrite flat_map_app.
    destruct (is_risk_cell c && k_trade_client k);
      rewrite Hwr, Hw in *; cbn [app].
    + right. split; [discriminate |].
      destruct IH as [[_ ->] | [_ ->]]; reflexivity.
    + exact IH.
Qed.

(** Once [trade_client] is bound, the risk management cell writes whenever
    it is run. *)
Lemma session_from_ready (cells : list cell) (k : Kernel) (w : World) :
  k_trade_client k = true ->
  snd (snd (session_from k cells w))
  = if existsb is_risk_cell cells then capped w else w.
Proof.
  revert k w. induction cells as [| c rest IH]; intros k w Hk;
    [reflexivity |].
  cbn [session_from existsb].
  pose proof (run_cell_world c k w) as Hw.
  pose proof (run_cell_names c k w) as Hn.
  assert (Hk' : k_trade_client (k_names (run_cell c k w)) = true).
  { rewrite Hn. destruct c; try exact Hk; try reflexivity.
    - destruct (k_imports k), (k_keys k) as [[[a s] p] |]; try exact Hk.
      destruct (usable a && usable s); [reflexivity | exact Hk].
    - destruct (k_imports k && k_trade_client k); exact Hk. }
  specialize (IH (k_names (run_cell c k w)) (k_world (run_cell c k w)) Hk').
  destruct (session_from _ rest _) as [t kw]. cbn [snd] in *.
  rewrite IH, Hw, Hk, andb_true_r.
  destruct (is_risk_cell c), (existsb is_risk_cell rest); reflexivity.
Qed.

Lemma cell_eq_dec (a b : cell) : {a = b} + {a <> b}.
Proof. decide equality. Defined.

Lemma not_in_allowed (c : cell) (cells : list cell) :
  ~ In c cells -> Forall (fun x => x <> c) cells.
Proof.
  intros H. apply Forall_forall. intros x Hin ->. contradiction.
Qed.

Ltac quiet_step c k w :=
  rewrite run_cell_world, run_cell_writes, ?run_cell_names;
  destruct c; cbn [is_risk_cell andb]; try congruence.

(** Nothing is written by a session that lacks one of the cells 4, 2, 1
    and 0, or whose keys the clients refuse. *)
Lemma session_without_cell_4 (cells : list cell) (k : Kernel) (w : World) :
  ~ In Cell4 cells ->
  written_levels (fst (session_from k cells w)) = []
  /\ snd (snd (session_from k cells w)) = w.
Proof.
  intros H.
  apply session_quiet with (I := fun _ => True) (allowed := fun x => x <> Cell4);
    [| apply not_in_allowed, H | exact Logic.I].
  intros c k0 Hc _. quiet_step c k0 w; repeat split.
Qed.

Lemma session_without_cell_2 (cells : list cell) (k : Kernel) (w : World) :
  k_trade_client k = false ->
  ~ In Cell2 cells ->
  written_levels (fst (session_from k cells w)) = []
  /\ snd (snd (session_from k cells w)) = w.
Proof.
  intros Hk H.
  apply session_quiet with (I := fun k => k_trade_client k = false)
                           (allowed := fun x => x <> Cell2);
    [| apply not_in_allowed, H | exact Hk].
  intros c k0 Hc Hk0. quiet_step c k0 w; rewrite ?Hk0, ?andb_false_r;
    repeat split; assumption.
Qed.

Lemma session_without_cell_1 (cells : list cell) (k : Kernel) (w : World) :
  k_trade_client k = false -> k_imports k = false ->
  ~ In Cell1 cells ->
  written_levels (fst (session_from k cells w)) = []
  /\ snd (snd (session_from k cells w)) = w.
Proof.
  intros Hk Hi H.
  apply session_quiet
    with (I := fun k => k_trade_client k = false /\ k_imports k = false)
         (allowed := fun x => x <> Cell1);
    [| apply not_in_allowed, H | split; assumption].
  intros c k0 Hc [Hk0 Hi0]. quiet_step c k0 w;
    rewrite ?Hk0, ?Hi0, ?andb_false_r; cbn [andb]; repeat split; assumption.
Qed.

Lemma session_without_cell_0 (cells : list cell) (k : Kernel) (w : World) :
  k_trade_client k = false -> k_keys k = None ->
  ~ In Cell0 cells ->
  written_levels (fst (session_from k cells w)) = []
  /\ snd (snd (session_from k cells w)) = w.
Proof.
  intros Hk Hkeys H.
  apply session_quiet
    with (I := fun k => k_trade_client k = false /\ k_keys k = None)
         (allowed := fun x => x <> Cell0);
    [| apply not_in_allowed, H | split; assumption].
  intros c k0 Hc [Hk0 Hkeys0]. quiet_step c k0 w;
    rewrite ?Hk0, ?Hkeys0, ?andb_false_r; cbn [andb];
    try (destruct (k_imports k0)); repeat split; assumption.
Qed.

Lemma session_without_keys (cells : list cell) (k : Kernel) (w : World) :
  usable (environ w "ALPACA_API_KEY"%string)
  && usable (environ w "ALPACA_SECRET_KEY"%string) = false ->
  k_trade_client k = false ->
  k_keys k = None
  \/ k_keys k = Some (environ w "ALPACA_API_KEY"%string,
                      environ w "ALPACA_SECRET_KEY"%string, true) ->
  written_levels (fst (session_from k cells w)) = []
  /\ snd (snd (session_from k cells w)) = w.
Proof.
  intros Hkeys Hk Hbound.
  apply session_quiet
    with (I := fun k =>
                 k_trade_client k = false
                 /\ (k_keys k = None
                     \/ k_keys k
                        = Some (environ w "ALPACA_API_KEY"%string,
                                environ w "ALPACA_SECRET_KEY"%string, true)))
         (allowed := fun _ => True);
    [| apply Forall_forall; intros; exact Logic.I | split; assumption].
  intros c k0 _ [Hk0 Hb0]. quiet_step c k0 w;
    rewrite ?Hk0, ?andb_false_r; cbn [andb];
    try (repeat split; assumption).
  - repeat split; try assumption. right. reflexivity.
  - destruct (k_imports k0); [| repeat split; assumption].
    destruct Hb0 as [Hnone | Hsome].
    + rewrite Hnone. repeat split; auto.
    + rewrite Hsome, Hkeys. repeat split; auto.
Qed.

Lemma session_fst (cells : list cell) (w : World) :
  fst (session cells w) = fst (session_from fresh cells w).
Proof.
  unfold session. destruct (session_from fresh cells w) as [t [k' w']].
  reflexivity.
Qed.

Lemma session_snd (cells : list cell) (w : World) :
  snd (session cells w) = snd (snd (session_from fresh cells w)).
Proof.
  unfold session. destruct (session_from fresh cells w) as [t [k' w']].
  reflexivity.
Qed.

(** After cells 0, 1 and 2 on a fresh kernel with usable keys, the clients
    are bound and nothing has been written. *)
Lemma session_from_clients (rest : list cell) (w : World) :
  credentials_set (environ w) ->
  snd (snd (session_from fresh (Cell0 :: Cell1 :: Cell2 :: rest) w))
  = if existsb is_risk_cell rest then capped w else w.
Proof.
  intros Hkeys. apply usable_credentials in Hkeys.
  cbn [session_from run_cell].
  rewrite kernel_cell_0_run. cbn [k_names k_world k_trace].
  rewrite kernel_cell_1_run. cbn [k_names k_world k_trace].
  rewrite kernel_cell_2_run.
  cbn [k_imports k_keys bind_imports bind_keys]. rewrite Hkeys.
  cbn [k_names k_world k_trace].
  pose proof (session_from_ready rest
                (bind_clients
                   (bind_imports
                      (bind_keys (environ w "ALPACA_API_KEY"%string,
                                  environ w "ALPACA_SECRET_KEY"%string, true)
                                 fresh))) w eq_refl) as H.
  destruct (session_from _ rest w) as [t kw]. cbn [snd] in *. exact H.
Qed.

(** ** The notebook as the sequence of its cells *)

Lemma notebook_run (w : World) :
  notebook w =
  let head :=
    trace (cell_0 w)
    ++ trace (cell_2 (environ w "ALPACA_API_KEY"%string)
                     (environ w "ALPACA_SECRET_KEY"%string) true w)
    ++ trace (cell_3 w) ++ trace (cell_4 w) in
  match attributes (asset_of w "TSLA") with
  | None =>
      {| trace := head ++ cell_5_head (capped w);
         final := capped w;
         result := Raised TypeError |}
  | Some l =>
      {| trace :=
           head ++ trace (cell_5 (capped w)) ++ trace (cell_6 (capped w))
           ++ trace (cell_7 "TSLA" (asset_of w "TSLA") (capped w));
         final := capped w;
         result := result (cell_7 "TSLA" (asset_of w "TSLA") (capped w)) |}
  end.
Proof.
  unfold notebook, bind. cbv zeta.
  rewrite cell_0_run. cbn [result final trace].
  rewrite cell_2_run. cbn [result final trace].
  rewrite cell_3_run. cbn [result final trace].
  rewrite cell_4_run. cbn [result final trace]. fold (capped w).
  rewrite !cell_5_run.
  change (asset_of (capped w) "TSLA") with (asset_of w "TSLA").
  destruct (attributes (asset_of w "TSLA")) as [l |];
    cbn [result final trace]; [| reflexivity].
  rewrite !cell_6_run. cbn [result final trace].
  rewrite cell_7_final. reflexivity.
Qed.

(** ** Negating a price *)

Lemma binary_round_aux_opp (s : bool) (m e : Z) (l : location) :
  binary_round_aux prec emax (negb s) m e l
  = SFopp (binary_round_aux prec emax s m e l).
Proof.
  unfold binary_round_aux.
  destruct (shr_fexp prec emax m e l) as [mrs' e'].
  destruct (shr_fexp prec emax _ e' loc_Exact) as [mrs'' e''].
  destruct (shr_m mrs''); try reflexivity.
  destruct (e'' <=? _); reflexivity.
Qed.

Lemma float_of_ratio_opp (s : bool) (num den : positive) :
  float_of_ratio (negb s) num den = SFopp (float_of_ratio s num den).
Proof.
  unfold float_of_ratio, SFdiv.
  destruct (SFdiv_core_binary prec emax (Z.pos num) 0 (Z.pos den) 0)
    as [[mz ez] lz].
  rewrite !xorb_false_r. apply binary_round_aux_opp.
Qed.

Lemma fmul_c_1_02_opp (p : float) :
  fmul (SFopp p) c_1_02 = SFopp (fmul p c_1_02).
Proof.
  destruct p as [s | s | | s m e]; try reflexivity;
    try (destruct s; reflexivity).
  unfold fmul, c_1_02. cbn [SFopp SFmul].
  rewrite !xorb_false_r. apply binary_round_aux_opp.
Qed.

Lemma double_round_opp (x : float) (ndigits : Z) :
  double_round (SFopp x) ndigits = SFopp (double_round x ndigits).
Proof.
  destruct x as [s | s | | s m e]; try reflexivity.
  cbn [SFopp double_round].
  destruct (scaled_ratio ndigits m e) as [num den].
  destruct (round_half_even num den); try reflexivity.
  apply float_of_ratio_opp.
Qed.

Lemma min_strike_value_opp (p : float) :
  min_strike_value (SFopp p) = SFopp (min_strike_value p).
Proof.
  unfold min_strike_value. rewrite fmul_c_1_02_opp. apply double_round_opp.
Qed.

Lemma float_repr_opp (x : float) :
  sign_is false x ->
  float_repr (SFopp x) = String "-" (float_repr x).
Proof.
  destruct x as [s | s | | s m e]; cbn [sign_is]; intros H;
    try contradiction; subst s; try reflexivity.
  cbn [SFopp negb float_repr].
  destruct (dtoa_shortest m e) as [ds decpt]. reflexivity.
Qed.

End CellFacts.

(** * Further properties of the cells *)

Import CellFacts.

(** X1: the risk management cell is idempotent on the account.  Run a
    second time right after the first, it finishes with the same
    configuration and leaves the same account; the second run reads the
    ceiling 1 that the first one wrote, so both its lines show 1, and it
    writes 1 again. *)
Theorem risk_step_twice (w : World) :
  final ((cell_4 ;; cell_4) w) = final (cell_4 w)
  /\ result ((cell_4 ;; cell_4) w) = result (cell_4 w)
  /\ printed (trace (cell_4 (final (cell_4 w))))
     = [[Text "Max Options Trading Level: 1"];
        [Text "Max Options Trading Level: 1"]]
  /\ written_levels (trace ((cell_4 ;; cell_4) w)) = [Some 1; Some 1].
Proof.
  unfold bind. cbv zeta.
  repeat (rewrite cell_4_run; cbn [result final trace]).
  repeat split.
Qed.

(** X2: what cell 5 does with the attributes of the underlying.  When the
    brokerage gives TSLA no attribute list (None), the membership test
    raises [TypeError] after the count of underlyings has been printed, and
    nothing more is printed.  Otherwise the cell finishes with the symbol
    and the asset, and its second line says True exactly when
    "options_enabled" is among the attributes of that asset, whatever the
    listing of underlyings holds. *)
Theorem underlying_lookup_outcome (w : World) :
  let count :=
    [Text ("Number of Underlyings with Options: "
           ++ str_int
                (Z.of_nat
                   (List.length
                      (asset_listing w
                         (GetAssetsRequest "active" "options_enabled")))))] in
  match attributes (asset_of w "TSLA") with
  | None =>
      result (cell_5 w) = Raised TypeError
      /\ printed (trace (cell_5 w)) = [count]
  | Some l =>
      result (cell_5 w) = Done ("TSLA"%string, asset_of w "TSLA")
      /\ ((In "options_enabled"%string l
           /\ printed (trace (cell_5 w))
              = [count; [Text "TSLA has options? True"]])
          \/ (~ In "options_enabled"%string l
              /\ printed (trace (cell_5 w))
                 = [count; [Text "TSLA has options? False"]]))
  end.
Proof.
  intros count. rewrite cell_5_run.
  destruct (attributes (asset_of w "TSLA")) as [l |];
    [| split; reflexivity].
  split; [reflexivity |].
  destruct (existsb (String.eqb "options_enabled") l) eqn:E.
  - left. split; [| reflexivity].
    apply existsb_exists in E. destruct E as (x & Hin & Heq).
    apply String.eqb_eq in Heq. subst x. exact Hin.
  - right. split; [| reflexivity].
    intros Hin. apply Bool.not_true_iff_false in E. apply E.
    apply existsb_exists. exists "options_enabled"%string.
    split; [exact Hin | apply String.eqb_refl].
Qed.

(** X3: cell 6 prints the positions of the account one line each, in the
    order the brokerage gave them and nothing else; with no position it
    prints nothing.  It never raises and hands the list on unchanged. *)
Theorem positions_listed (w : World) :
  result (cell_6 w) = Done (open_positions w)
  /\ printed (trace (cell_6 w))
     = map (fun p => [PositionText p]) (open_positions w)
  /\ List.length (printed (trace (cell_6 w)))
     = List.length (open_positions w)
  /\ (open_positions w = [] -> printed (trace (cell_6 w)) = []).
Proof.
  rewrite cell_6_run. cbn [result trace].
  assert (H : printed
                (GetAllPositions
                 :: map (fun p => Print [PositionText p]) (open_positions w))
              = map (fun p => [PositionText p]) (open_positions w))
    by apply printed_positions.
  rewrite H. split; [reflexivity |]. split; [reflexivity |].
  split; [apply length_map |]. intros ->. reflexivity.
Qed.

Lemma positions_listed_witness :
  printed (trace (cell_6 (Samples.world None Samples.new_year_2024
                                        Samples.f_250))) = [].
Proof.
  apply (proj2 (proj2 (proj2 (positions_listed
           (Samples.world None Samples.new_year_2024 Samples.f_250))))).
  reflexivity.
Defined.

(** X4: run by hand on any kernel, a cell other than the risk management
    cell never writes the account configuration, whether it finishes or
    raises.  The risk management cell writes the ceiling 1, the other
    settings kept, exactly when [trade_client] is bound; on a kernel where
    it is not, it raises [NameError] before any call and the account
    configuration is as it was. *)
Theorem only_risk_cell_writes (c : cell) (k : Kernel) (w : World) :
  configurations (k_world (run_cell c k w))
  = (if is_risk_cell c && k_trade_client k
     then set_max_options_trading_level (configurations w) (Some 1)
     else configurations w)
  /\ written_levels (k_trace (run_cell c k w))
     = (if is_risk_cell c && k_trade_client k then [Some 1] else [])
  /\ (is_risk_cell c = true -> k_trade_client k = false ->
      k_result (run_cell c k w) = Raised NameError
      /\ k_trace (run_cell c k w) = []).
Proof.
  split; [| split].
  - rewrite run_cell_world.
    destruct (is_risk_cell c && k_trade_client k); reflexivity.
  - apply run_cell_writes.
  - intros Hc Hk. destruct c; try discriminate Hc.
    cbn [run_cell]. rewrite kernel_cell_4_run, Hk. split; reflexivity.
Qed.

Lemma only_risk_cell_writes_witness :
  let w := Samples.world (Some 3) Samples.new_year_2024 Samples.f_250 in
  k_result (run_cell Cell4 fresh w) = Raised NameError
  /\ k_trace (run_cell Cell4 fresh w) = [].
Proof.
  intros w.
  apply (proj2 (proj2 (only_risk_cell_writes Cell4 fresh w))); reflexivity.
Defined.

(** X5: the account after a session of cells run by hand on a fresh
    kernel, in any order, any number of times, a raising cell not stopping
    the next.  Either nothing was written and the account configuration is
    as before, or the ceiling is 1 with the other settings as before.
    Something is written only if both keys are usable and cells 0, 1, 2
    and 4 were all run; and in a session that starts with cells 0, 1 and 2
    under usable keys, the ceiling ends at 1 exactly when the risk
    management cell is run afterwards. *)
Theorem session_account (cells : list cell) (w : World) :
  ((written_levels (fst (session cells w)) = []
    /\ configurations (snd (session cells w)) = configurations w)
   \/ (written_levels (fst (session cells w)) <> []
       /\ configurations (snd (session cells w))
          = set_max_options_trading_level (configurations w) (Some 1)))
  /\ (written_levels (fst (session cells w)) <> [] ->
      credentials_set (environ w)
      /\ In Cell0 cells /\ In Cell1 cells /\ In Cell2 cells
      /\ In Cell4 cells)
  /\ (credentials_set (environ w) ->
      forall rest,
        cells = Cell0 :: Cell1 :: Cell2 :: rest ->
        configurations (snd (session cells w))
        = if existsb is_risk_cell rest
          then set_max_options_trading_level (configurations w) (Some 1)
          else configurations w).
Proof.
  rewrite session_fst, session_snd. split; [| split].
  - destruct (session_from_world cells fresh w) as [[Ht ->] | [Ht ->]];
      [left | right]; split; auto.
  - intros Hwritten.
    assert (Hkeys : usable (environ w "ALPACA_API_KEY"%string)
                    && usable (environ w "ALPACA_SECRET_KEY"%string) = true).
    { destruct (usable (environ w "ALPACA_API_KEY"%string)
                && usable (environ w "ALPACA_SECRET_KEY"%string)) eqn:E;
        [reflexivity |].
      destruct (session_without_keys cells fresh w E eq_refl
                  (or_introl eq_refl)) as [H _].
      contradiction. }
    split; [apply usable_credentials, Hkeys |].
    repeat split.
    + destruct (in_dec cell_eq_dec Cell0 cells) as [H | H]; [exact H |].
      destruct (session_without_cell_0 cells fresh w eq_refl eq_refl H)
        as [H' _]. contradiction.
    + destruct (in_dec cell_eq_dec Cell1 cells) as [H | H]; [exact H |].
      destruct (session_without_cell_1 cells fresh w eq_refl eq_refl H)
        as [H' _]. contradiction.
    + destruct (in_dec cell_eq_dec Cell2 cells) as [H | H]; [exact H |].
      destruct (session_without_cell_2 cells fresh w eq_refl H) as [H' _].
      contradiction.
    + destruct (in_dec cell_eq_dec Cell4 cells) as [H | H]; [exact H |].
      destruct (session_without_cell_4 cells fresh w H) as [H' _].
      contradiction.
  - intros Hkeys rest ->. rewrite session_from_clients by exact Hkeys.
    destruct (existsb is_risk_cell rest); reflexivity.
Qed.

Lemma session_account_witness :
  let w := Samples.world (Some 3) Samples.new_year_2024 Samples.f_250 in
  configurations (snd (session [Cell0; Cell1; Cell2; Cell6; Cell4] w))
  = set_max_options_trading_level (configurations w) (Some 1).
Proof.
  intros w.
  assert (Hkeys : credentials_set (environ w)).
  { exists "secret"%string, "secret"%string.
    repeat split; try reflexivity; discriminate. }
  apply (proj2 (proj2 (session_account [Cell0; Cell1; Cell2; Cell6; Cell4] w))
           Hkeys [Cell6; Cell4]).
  reflexivity.
Defined.


(** X6: how a run of the whole notebook ends, on an account whose keys are
    set and a brokerage that answers.  It stops in cell 5 with [TypeError]
    when TSLA comes without an attribute list; else in cell 7 with
    [OverflowError] when the expiration window does not fit among the
    dates; else it finishes, with [min_strike] computed from the last
    price of TSLA.  In all three cases the ceiling of the account has been
    set to 1 by then and stays so: nothing is undone when a later cell
    raises. *)
Theorem notebook_outcome (w : World) :
  credentials_set (environ w) ->
  final (notebook w) = capped w
  /\ max_options_trading_level (configurations (final (notebook w))) = Some 1
  /\ match attributes (asset_of w "TSLA") with
     | None => result (notebook w) = Raised TypeError
     | Some _ =>
         (window_fits (clock w) ->
          exists b,
            result (notebook w) = Done b
            /\ today b = clock w
            /\ min_strike b = min_strike_of (latest_trade_price w "TSLA"))
         /\ (~ window_fits (clock w) ->
             result (notebook w) = Raised OverflowError)
     end.
Proof.
  intros _. rewrite notebook_run. cbv zeta.
  destruct (attributes (asset_of w "TSLA")) as [l |]; cbn [final result];
    (split; [reflexivity |]); (split; [reflexivity |]); [| reflexivity].
  destruct (cell_7_outcome "TSLA" (asset_of w "TSLA") (capped w))
    as [(Hfit & _ & Hres) | (Hfit & _ & Hres)];
    rewrite Hres; split; intros H; try contradiction.
  - eexists. split; [reflexivity |]. split; reflexivity.
  - reflexivity.
Qed.

Lemma notebook_outcome_witness :
  let w := Samples.world None Samples.new_year_2024 Samples.f_250 in
  final (notebook w) = capped w
  /\ exists b, result (notebook w) = Done b
               /\ today b = clock w
               /\ min_strike b = min_strike_of Samples.f_250.
Proof.
  intros w.
  assert (Hkeys : credentials_set (environ w)).
  { exists "secret"%string, "secret"%string.
    repeat split; try reflexivity; discriminate. }
  destruct (notebook_outcome w Hkeys) as (Hfinal & _ & Hres).
  split; [exact Hfinal |].
  apply (proj1 Hres).
  unfold window_fits. vm_compute. split; [reflexivity | discriminate].
Defined.

(** X7: cell 7 computes both expiration dates before it asks for the last
    trade.  On a day whose window fits it asks for the last trade once,
    for the symbol it was given, and prints three lines; on a day whose
    window does not fit it raises having asked the brokerage nothing and
    printed nothing. *)
Theorem trade_requested_after_dates (underlying_symbol : string)
    (underlying : Asset) (w : World) :
  (window_fits (clock w) ->
   filter is_trade_request (trace (cell_7 underlying_symbol underlying w))
   = [GetStockLatestTrade (StockLatestTradeRequest underlying_symbol)]
   /\ List.length (printed (trace (cell_7 underlying_symbol underlying w)))
      = 3%nat)
  /\ (~ window_fits (clock w) ->
      trace (cell_7 underlying_symbol underlying w) = [Now]).
Proof.
  rewrite cell_7_run. unfold window_fits, date_add. cbn [toordinal days].
  destruct (Z.ltb_spec 0 (toordinal (clock w) + 14));
    destruct (Z.leb_spec (toordinal (clock w) + 14) MAXORDINAL);
    destruct (Z.ltb_spec 0 (toordinal (clock w) + 90));
    destruct (Z.leb_spec (toordinal (clock w) + 90) MAXORDINAL);
    cbn [andb]; split; intros Hfit;
    first [ split; reflexivity | reflexivity | exfalso; lia ].
Qed.

Lemma trade_requested_after_dates_witness :
  filter is_trade_request
         (trace (cell_7 "TSLA" Samples.tsla
                   (Samples.world None Samples.new_year_2024 Samples.f_250)))
  = [GetStockLatestTrade (StockLatestTradeRequest "TSLA")]
  /\ trace (cell_7 "TSLA" Samples.tsla
              (Samples.world None (date_of 9999 12 31) Samples.f_250))
     = [Now].
Proof.
  split.
  - apply (proj1 (trade_requested_after_dates "TSLA" Samples.tsla
                    (Samples.world None Samples.new_year_2024 Samples.f_250))).
    unfold window_fits. vm_compute. split; [reflexivity | discriminate].
  - apply (proj2 (trade_requested_after_dates "TSLA" Samples.tsla
                    (Samples.world None (date_of 9999 12 31) Samples.f_250))).
    unfold window_fits. vm_compute. intros [_ H]. apply H. reflexivity.
Defined.

Ltac same_run :=
  unfold cell_5_head;
  cbn [capped with_environ with_configurations environ clock account
       configurations asset_listing asset_of open_positions
       latest_trade_price app filter carries_keys negb];
  rewrite ?filter_app, ?no_keys_in_positions;
  cbn [filter carries_keys negb app length];
  repeat split.

(** X8: the keys read in cell 0 go to the three clients of cell 2 and
    nowhere else.  With the keys set, a run under other keys logs the same
    events apart from the construction of the clients, prints the same
    lines and ends the same way: no line printed and no request made
    shows a key. *)
Theorem keys_reach_only_clients (w : World) (env : string -> option string) :
  credentials_set (environ w) ->
  credentials_set env ->
  filter (fun ev => negb (carries_keys ev))
         (trace (notebook (with_environ w env)))
  = filter (fun ev => negb (carries_keys ev)) (trace (notebook w))
  /\ printed (trace (notebook (with_environ w env)))
     = printed (trace (notebook w))
  /\ result (notebook (with_environ w env)) = result (notebook w)
  /\ List.length (filter carries_keys (trace (notebook w))) = 3%nat.
Proof.
  intros _ _. rewrite !notebook_run. cbv zeta.
  rewrite !cell_0_run, !cell_2_run, !cell_3_run, !cell_4_run, !cell_5_run.
  change (asset_of (with_environ w env) "TSLA") with (asset_of w "TSLA").
  change (asset_of (capped (with_environ w env)) "TSLA")
    with (asset_of w "TSLA").
  change (asset_of (capped w) "TSLA") with (asset_of w "TSLA").
  destruct (attributes (asset_of w "TSLA")) as [l |]; cbn [trace result].
  - rewrite !cell_6_run, !cell_7_run. cbn [trace].
    change (clock (capped (with_environ w env))) with (clock w).
    change (clock (capped w)) with (clock w).
    destruct (date_add (clock w) {| days := 14 |}) as [lo | e1];
      [destruct (date_add (clock w) {| days := 90 |}) as [hi | e2] |];
      cbn [trace result]; same_run.
  - same_run.
Qed.

Lemma keys_reach_only_clients_witness :
  let w := Samples.world None Samples.new_year_2024 Samples.f_250 in
  let env := fun _ : string => Some "another"%string in
  printed (trace (notebook (with_environ w env)))
  = printed (trace (notebook w))
  /\ result (notebook (with_environ w env)) = result (notebook w).
Proof.
  intros w env.
  assert (Hw : credentials_set (environ w)).
  { exists "secret"%string, "secret"%string.
    repeat split; try reflexivity; discriminate. }
  assert (Henv : credentials_set env).
  { exists "another"%string, "another"%string.
    repeat split; try reflexivity; discriminate. }
  destruct (keys_reach_only_clients w env Hw Henv) as (_ & Hp & Hr & _).
  split; assumption.
Defined.

(** X9: whenever cell 7 finishes, the window it has bound is a proper one:
    both ends are dates, today lies before the earlier end, and the later
    end is exactly 76 days after the earlier one. *)
Theorem expiration_window_shape (underlying_symbol : string)
    (underlying : Asset) (w : World) (b : Overwrite) :
  result (cell_7 underlying_symbol underlying w) = Done b ->
  toordinal (max_expiration b) - toordinal (min_expiration b) = 76
  /\ toordinal (today b) < toordinal (min_expiration b)
     < toordinal (max_expiration b)
  /\ 0 < toordinal (min_expiration b)
  /\ toordinal (max_expiration b) <= MAXORDINAL.
Proof.
  intros Hb.
  destruct (cell_7_outcome underlying_symbol underlying w)
    as [(Hfit & _ & Hres) | (_ & _ & Hres)];
    rewrite Hres in Hb; [| discriminate Hb].
  injection Hb as <-. unfold window_fits in Hfit.
  cbn [today min_expiration max_expiration toordinal]. lia.
Qed.

Lemma expiration_window_shape_witness :
  toordinal (date_of 2024 3 31) - toordinal (date_of 2024 1 15) = 76.
Proof.
  apply (expiration_window_shape "TSLA" Samples.tsla
           (Samples.world None Samples.new_year_2024 Samples.f_250)
           {| today := date_of 2024 1 1;
              min_expiration := date_of 2024 1 15;
              max_expiration := date_of 2024 3 31;
              underlying_last_price := Samples.f_250;
              min_strike := "255.0" |}).
  vm_compute. reflexivity.
Defined.

(** X10: the threshold of a negated price is the negated threshold.  For
    every float price the number rendered at the opposite price is the
    opposite number, and for a price above zero the text computed at the
    opposite price is the text computed at the price with a minus sign in
    front. *)
Theorem min_strike_of_negated_price (p : float) :
  min_strike_value (SFopp p) = SFopp (min_strike_value p)
  /\ (flt fzero p = true ->
      min_strike_of (SFopp p) = String "-" (min_strike_of p)).
Proof.
  split; [apply min_strike_value_opp |].
  intros Hp. unfold min_strike_of. rewrite min_strike_value_opp.
  apply float_repr_opp, min_strike_value_sign, positive_sign, Hp.
Qed.

Lemma min_strike_of_negated_price_witness :
  min_strike_of Samples.f_minus_5
  = String "-" (min_strike_of (float_of_ratio false 5 1)).
Proof.
  apply (proj2 (min_strike_of_negated_price (float_of_ratio false 5 1))).
  reflexivity.
Defined.

(** * Sessions replayed *)

Module SessionReplay.
Import Samples.

(** Run by hand from top to bottom on a fresh kernel, with usable keys and
    an attribute list for TSLA, the cells log what the notebook logs and
    leave the world it leaves. *)
Lemma top_to_bottom_is_notebook (w : World) (l : list string) :
  credentials_set (environ w) ->
  attributes (asset_of w "TSLA") = Some l ->
  fst (session top_to_bottom w) = trace (notebook w)
  /\ snd (session top_to_bottom w) = final (notebook w).
Proof.
  intros Hkeys Hattr. apply usable_credentials in Hkeys.
  rewrite session_fst, session_snd, notebook_run, Hattr. cbv zeta.
  unfold top_to_bottom. cbn [session_from run_cell].
  rewrite kernel_cell_0_run. cbn [k_names k_world k_trace].
  rewrite kernel_cell_1_run. cbn [k_names k_world k_trace].
  rewrite kernel_cell_2_run.
  cbn [k_imports k_keys bind_imports bind_keys]. rewrite Hkeys.
  cbn [k_names k_world k_trace].
  rewrite kernel_cell_3_run. cbn [k_trade_client bind_clients].
  cbn [k_names k_world k_trace].
  rewrite kernel_cell_4_run. cbn [k_trade_client bind_clients].
  cbn [k_names k_world k_trace].
  rewrite kernel_cell_5_run.
  cbn [k_trade_client k_imports bind_clients bind_imports bind_keys fresh].
  cbn [k_names k_world k_trace].
  rewrite kernel_cell_6_run.
  cbn [k_trade_client bind_underlying bind_underlying_symbol bind_clients].
  cbn [k_names k_world k_trace].
  rewrite kernel_cell_7_run. cbv zeta.
  cbn [k_imports k_underlying_symbol k_stock_data_client k_underlying
       bind_underlying bind_underlying_symbol bind_clients bind_imports].
  change (asset_of (capped w) "TSLA") with (asset_of w "TSLA").
  rewrite (cell_7_run "TSLA" (asset_of w "TSLA") (capped w)).
  destruct (date_add (clock (capped w)) {| days := 14 |}) as [lo | e1];
    [destruct (date_add (clock (capped w)) {| days := 90 |}) as [hi | e2] |];
    cbn [k_names k_world k_trace trace final fst snd app];
    rewrite ?app_nil_r; split; reflexivity.
Qed.

(** On a fresh kernel the risk management cell alone finds no
    [trade_client]: it raises and the account is untouched. *)
Example session_cell_4_alone :
  let w := world (Some 3) new_year_2024 f_250 in
  session [Cell4] w = ([], w)
  /\ k_result (run_cell Cell4 fresh w) = Raised NameError.
Proof. split; reflexivity. Qed.

(** Without the imports of cell 1, cell 2 builds no client and cell 4
    still finds none. *)
Example session_without_imports :
  let w := world (Some 3) new_year_2024 f_250 in
  written_levels (fst (session [Cell0; Cell2; Cell4] w)) = []
  /\ snd (session [Cell0; Cell2; Cell4] w) = w.
Proof. split; reflexivity. Qed.

(** With the keys unset the clients refuse to be built, and cell 4 finds
    none. *)
Example session_without_keys_set :
  let w := with_environ (world (Some 3) new_year_2024 f_250)
                        (fun _ => None) in
  k_result (run_cell Cell2 (bind_imports (bind_keys (None, None, true) fresh)) w)
  = Raised ValueError
  /\ written_levels (fst (session [Cell0; Cell1; Cell2; Cell4] w)) = []
  /\ configurations (snd (session [Cell0; Cell1; Cell2; Cell4] w))
     = configurations w.
Proof. repeat split. Qed.

(** Cell 5 run right after the imports builds its request and then finds
    no [trade_client]. *)
Example session_cell_5_early :
  let w := world (Some 3) new_year_2024 f_250 in
  session [Cell1; Cell5] w
  = ([NewRequest (GetAssetsRequest "active" "options_enabled")], w).
Proof. reflexivity. Qed.

Example session_top_to_bottom :
  let w := world (Some 3) new_year_2024 f_250 in
  fst (session top_to_bottom w) = trace (notebook w)
  /\ written_levels (fst (session top_to_bottom w)) = [Some 1].
Proof. vm_compute. split; reflexivity. Qed.

End SessionReplay.
